(** * Naija-Prop-Intel: the scoring engine and the corridor matcher

    A shallow embedding of [analyzer.py] (class [PropertyAnalyzer]) and of
    [route_search.py] (class [RouteSearcher]), and the properties of the
    specification proved, or refuted, on it.

    Numbers are modelled by what the Python code does with them:
    - the three locality scores are JSON integers (the source annotates them
      [int]); the two smart scores multiply them by binary64 literals, and
      the roundings that follow depend on the binary64 results, so that
      arithmetic is carried out on primitive binary64 floats, bit for bit;
    - prices, rates and costs are rationals: every finite binary64 value is
      one, and the claims about them are algebraic identities of exact
      arithmetic (binary64 satisfies them up to rounding only), so they are
      computed in [Q];
    - great-circle distances go through [sin], [cos], [sqrt] and [atan2]:
      they are real numbers, and so is the corridor test. *)

From Stdlib Require Import ZArith QArith Qround Qabs Reals Qreals Floats.
From Stdlib Require Import Bool Lia Lqa Lra FMapPositive.
From Stdlib Require Import Strings.String Strings.Byte.
From Stdlib Require Import List Sorted Permutation.
Import ListNotations.

Set Warnings "-inexact-float".

(** ** Python values *)

(** The exceptions the modelled code can raise.  A [KeyError] on a record that
    lacks a field is excluded by the types below; the one left is a lookup of
    a name the repository does not have. *)
Inductive exn : Type :=
| KeyError
| ZeroDivisionError
| OverflowError
| ValueError.

Inductive py (A : Type) : Type :=
| Return (a : A)
| Raise (e : exn).

Arguments Return {A} a.
Arguments Raise {A} e.

Definition bind {A B : Type} (m : py A) (k : A -> py B) : py B :=
  match m with
  | Return a => k a
  | Raise e => Raise e
  end.

Declare Scope py_scope.
Delimit Scope py_scope with py.
Notation "x <- m ;; k" := (bind m (fun x => k))
  (at level 61, m at next level, right associativity) : py_scope.
Open Scope py_scope.

(** A [str] is a sequence of Unicode code points. *)
Definition char : Type := N.
Definition str : Type := list char.

Definition str_eqb (a b : str) : bool :=
  if list_eq_dec N.eq_dec a b then true else false.

(** Reads a UTF-8 encoded literal into its code points; only used to write
    the examples legibly. *)
Fixpoint utf8_decode (bs : list N) : str :=
  match bs with
  | [] => []
  | b :: rest =>
      if (b <? 128)%N then b :: utf8_decode rest
      else if (b <? 224)%N then
        match rest with
        | c1 :: r => ((b - 192) * 64 + (c1 - 128))%N :: utf8_decode r
        | _ => []
        end
      else if (b <? 240)%N then
        match rest with
        | c1 :: c2 :: r =>
            ((b - 224) * 4096 + (c1 - 128) * 64 + (c2 - 128))%N :: utf8_decode r
        | _ => []
        end
      else
        match rest with
        | c1 :: c2 :: c3 :: r =>
            ((b - 240) * 262144 + (c1 - 128) * 4096 + (c2 - 128) * 64 + (c3 - 128))%N
              :: utf8_decode r
        | _ => []
        end
  end.

Definition text (s : string) : str :=
  utf8_decode (map Byte.to_N (list_byte_of_string s)).

(** [needle in hay] on strings. *)
Fixpoint is_prefix (p s : str) : bool :=
  match p, s with
  | [], _ => true
  | _ :: _, [] => false
  | a :: p', b :: s' => (a =? b)%N && is_prefix p' s'
  end.

Fixpoint str_contains (needle hay : str) : bool :=
  is_prefix needle hay ||
  match hay with
  | [] => false
  | _ :: hay' => str_contains needle hay'
  end.

(** Code-point order, the order of [sorted] on strings. *)
Fixpoint str_ltb (a b : str) : bool :=
  match a, b with
  | _, [] => false
  | [], _ :: _ => true
  | x :: a', y :: b' => (x <? y)%N || ((x =? y)%N && str_ltb a' b')
  end.

Fixpoint insert_str (x : str) (l : list str) : list str :=
  match l with
  | [] => [x]
  | y :: l' => if str_ltb y x then y :: insert_str x l' else x :: l
  end.

Definition sorted_strs (l : list str) : list str :=
  fold_right insert_str [] l.

(** ** Binary64 arithmetic as CPython performs it *)

Module Binary64.

Definition Z2SF (z : Z) : spec_float :=
  match z with
  | Z0 => S754_zero false
  | Zpos p => S754_finite false p 0
  | Zneg p => S754_finite true p 0
  end.

(** The binary64 nearest to the integer [z] (ties to even), infinite when
    [z] is out of range. *)
Definition of_int (z : Z) : float :=
  SF2Prim (binary_normalize prec emax z 0 false).

(** The binary64 nearest to the quotient [a / b] of two integers, in one
    rounding. *)
Definition nearest_quotient (a b : Z) : float :=
  SF2Prim (SFdiv prec emax (Z2SF a) (Z2SF b)).

(** The rational a finite binary64 stands for. *)
Definition exact (x : float) : option Q :=
  match Prim2SF x with
  | S754_zero _ => Some 0%Q
  | S754_finite s m e =>
      let mag := if (0 <=? e)%Z then (Zpos m * 2 ^ e)%Z # 1
                 else Zpos m # Z.to_pos (2 ^ (- e)) in
      Some (if s then Qopp mag else mag)
  | S754_infinity _ | S754_nan => None
  end.

(** [float(n)] for an [int], and the implicit conversion of an [int]
    operand of a float operation. *)
Definition float_of_int (z : Z) : py float :=
  let x := of_int z in
  if PrimFloat.is_infinity x then Raise OverflowError else Return x.

(** [a / b] on two [int]s. *)
Definition int_true_div (a b : Z) : py float :=
  if (b =? 0)%Z then Raise ZeroDivisionError
  else
    let x := nearest_quotient a b in
    if PrimFloat.is_infinity x then Raise OverflowError else Return x.

End Binary64.

(** Rounding a rational to the nearest integer, ties to the even one. *)
Definition round_half_even (q : Q) : Z :=
  let n := Qfloor q in
  match Qcompare (q - inject_Z n) (1 # 2) with
  | Lt => n
  | Gt => (n + 1)%Z
  | Eq => if Z.even n then n else (n + 1)%Z
  end.

(** [int(x)] for a float: truncation towards zero. *)
Definition Qtruncate (q : Q) : Z :=
  if Qle_bool 0 q then Qfloor q else Qceiling q.

Definition int_of_float (x : float) : py Z :=
  match Binary64.exact x with
  | Some q => Return (Qtruncate q)
  | None => if PrimFloat.is_nan x then Raise ValueError else Raise OverflowError
  end.

(** [round(x)] for a float: the nearest integer of its exact value, ties
    to even. *)
Definition round_to_int (x : float) : py Z :=
  match Binary64.exact x with
  | Some q => Return (round_half_even q)
  | None => if PrimFloat.is_nan x then Raise ValueError else Raise OverflowError
  end.

(** [round(x, d)] for a float and a small [d >= 0]: the exact value is
    rounded to [d] decimals, ties to even, and the decimal obtained is read
    back as the nearest binary64; the sign of [x] is kept on a zero result,
    and infinities and NaN are returned as they are. *)
Definition round_ndigits (x : float) (d : N) : float :=
  match Binary64.exact x with
  | Some q =>
      let p := (10 ^ Z.of_N d)%Z in
      let n := round_half_even (q * inject_Z p) in
      if (n =? 0)%Z then (if PrimFloat.get_sign x then PrimFloat.neg_zero else PrimFloat.zero)
      else Binary64.nearest_quotient n p
  | None => x
  end.

(** ** The locality repository ([data/zones.json])

    One record per zone, with the fields the two classes compute with.  The
    descriptive fields that are only copied into the report (drainage, safe
    hours, water source and the like) are left out. *)

Record coordinates_t : Type := {
  lat : Q;
  lng : Q
}.

Record flood_risk_t : Type := {
  flood_score : Z;
  flood_level : str
}.

Record security_t : Type := {
  security_score : Z;
  security_level : str
}.

Record infrastructure_t : Type := {
  infrastructure_score : Z
}.

Record market_data_t : Type := {
  avg_price_per_sqm : Q;
  price_range : str;
  appreciation_5yr : Q;
  rental_yield : Q;
  days_to_sell_avg : Z;
  demand_level : str
}.

Record hidden_costs_t : Type := {
  omo_onile : Q;
  land_survey : Q;
  flood_insurance : Q;
  generator_diesel_monthly : Q;
  borehole_maintenance : option Q;
  estate_service_charge : option Q
}.

Record zone : Type := {
  zone_location : str;
  coordinates : coordinates_t;
  flood_risk : flood_risk_t;
  security : security_t;
  infrastructure : infrastructure_t;
  market_data : market_data_t;
  hidden_costs : hidden_costs_t;
  notes : str
}.

(** A [dict] keyed by zone name, in insertion order. *)
Definition zones_t : Type := list (str * zone).

Fixpoint dict_get (zones : zones_t) (name : str) : option zone :=
  match zones with
  | [] => None
  | (k, z) :: rest => if str_eqb k name then Some z else dict_get rest name
  end.

Definition dict_mem (zones : zones_t) (name : str) : bool :=
  match dict_get zones name with
  | Some _ => true
  | None => false
  end.

Definition dict_keys (zones : zones_t) : list str := map fst zones.

(** ** [analyzer.py] *)

Inductive risk_tier : Type := LOW | MODERATE | HIGH.

Inductive level : Type := EXCELLENT_LEVEL | GOOD_LEVEL | MODERATE_LEVEL | POOR_LEVEL.

Inductive price_status : Type := UNDERPRICED | FAIR | ELEVATED | OVERPRICED | UNKNOWN.

Inductive roi_verdict : Type := ROI_EXCELLENT | ROI_GOOD | ROI_FAIR | ROI_POOR.

Inductive liquidity_t : Type := High | Moderate | Low.

Record price_verdict : Type := {
  status : price_status;
  market_range : str;
  offered_price : Q;
  market_median : option Q
}.

Record analysis : Type := {
  a_location : str;
  a_property_type : str;
  a_price_offered : Q;
  smart_score : float;
  overall_risk : risk_tier;
  a_flood_score : Z;
  a_security_score : Z;
  a_infrastructure_score : Z;
  a_infrastructure_level : level;
  price_analysis : price_verdict;
  a_monthly_generator : Q;
  total_hidden : Q;
  a_local_notes : str
}.

(** What [analyze_property] and [calculate_roi] return: the report, or the
    dictionary with the key ["error"] and the available locations. *)
Inductive answer (A : Type) : Type :=
| Found (a : A)
| NotFound (asked : str) (available_locations : list str).

Arguments Found {A} a.
Arguments NotFound {A} asked available_locations.

Record roi_report : Type := {
  r_location : str;
  investment_price : Q;
  holding_period_years : Z;
  annual_rental_income : Q;
  total_rental_income : Q;
  appreciation_total : Q;
  capital_gain : Q;
  gross_return : Q;
  one_time_costs : Q;
  generator_fuel : Q;
  other_annual : Q;
  annual_costs : Q;
  total_recurring_costs : Q;
  total_hidden_costs : Q;
  net_return : Q;
  roi_percentage : Q;
  verdict : roi_verdict;
  annual_roi : Q;
  liquidity : liquidity_t
}.

(** The code point of the naira sign. *)
Definition NAIRA : char := 8358%N.
Definition LETTER_M : char := 77%N.
Definition HYPHEN : char := 45%N.

(** A greedy repetition of a character class, as a backtracking matcher:
    the longest run is tried first, then the shorter ones. *)
Fixpoint greedy {A : Type} (cls : char -> bool) (taken : str) (s : str)
    (k : str -> str -> option A) : option A :=
  match s with
  | c :: s' =>
      if cls c then
        match greedy cls (taken ++ [c]) s' k with
        | Some r => Some r
        | None => k taken s
        end
      else k taken s
  | [] => k taken s
  end.

Definition one_or_more {A : Type} (cls : char -> bool) (s : str)
    (k : str -> str -> option A) : option A :=
  match s with
  | c :: s' => if cls c then greedy cls [c] s' k else None
  | [] => None
  end.

Definition literal {A : Type} (c : char) (s : str) (k : str -> option A) : option A :=
  match s with
  | c' :: s' => if (c' =? c)%N then k s' else None
  | [] => None
  end.

Definition Qlt_bool (x y : Q) : bool := negb (Qle_bool y x).

Definition py_div (x y : Q) : py Q :=
  if Qeq_bool y 0 then Raise ZeroDivisionError else Return (x / y)%Q.

Section PropertyAnalyzer.

(** The tables of the Unicode database behind [str.lower], the class [\d]
    (with the digit's value, as [float] reads it) and the class [\s]. *)
Variable str_lower : str -> str.
Variable unicode_digit : char -> option N.
Variable unicode_space : char -> bool.

(** [self.zones_data] *)
Variable zones_data : zones_t.

Definition is_digit (c : char) : bool :=
  match unicode_digit c with
  | Some _ => true
  | None => false
  end.

(** The pattern [₦(\d+)M\s*-\s*₦(\d+)M] matched at the head of [s]. *)
Definition match_range_here (s : str) : option (str * str) :=
  literal NAIRA s (fun s1 =>
  one_or_more is_digit s1 (fun lo s2 =>
  literal LETTER_M s2 (fun s3 =>
  greedy unicode_space [] s3 (fun _ s4 =>
  literal HYPHEN s4 (fun s5 =>
  greedy unicode_space [] s5 (fun _ s6 =>
  literal NAIRA s6 (fun s7 =>
  one_or_more is_digit s7 (fun hi s8 =>
  literal LETTER_M s8 (fun _ => Some (lo, hi)))))))))).

(** [re.search]: the leftmost position where the pattern matches. *)
Fixpoint search_range (s : str) : option (str * str) :=
  match match_range_here s with
  | Some g => Some g
  | None =>
      match s with
      | [] => None
      | _ :: s' => search_range s'
      end
  end.

(** [float] of a run of decimal digits. *)
Definition float_of_digits (ds : str) : Q :=
  inject_Z (fold_left (fun acc c =>
    (acc * 10 + match unicode_digit c with Some v => Z.of_N v | None => 0 end)%Z) ds 0%Z).

Definition get_available_locations : list str :=
  sorted_strs (dict_keys zones_data).

Definition _normalize_location (location : str) : str :=
  if dict_mem zones_data location then location
  else
    let location_lower := str_lower location in
    match find (fun key => str_eqb (str_lower key) location_lower) (dict_keys zones_data) with
    | Some key => key
    | None =>
        match find (fun key => str_contains location_lower (str_lower key))
                   (dict_keys zones_data) with
        | Some key => key
        | None => location
        end
    end.

(** The chain of tests that picks the verdict. *)
Definition classify_price (offered low_range high_range : Q) : price_status :=
  let mid_range := ((low_range + high_range) / 2)%Q in
  if Qlt_bool offered (low_range * (9 # 10)) then UNDERPRICED
  else if Qle_bool offered mid_range then FAIR
  else if Qle_bool offered high_range then ELEVATED
  else OVERPRICED.

Definition _evaluate_price (offered : Q) (avg_price_sqm : Q) (location : str)
  : py price_verdict :=
  match dict_get zones_data location with
  | None => Raise KeyError
  | Some zone =>
      let price_range := price_range (market_data zone) in
      match search_range price_range with
      | Some (lo, hi) =>
          let low_range := (float_of_digits lo * 1000000)%Q in
          let high_range := (float_of_digits hi * 1000000)%Q in
          let mid_range := ((low_range + high_range) / 2)%Q in
          Return {| status := classify_price offered low_range high_range;
                    market_range := price_range;
                    offered_price := offered;
                    market_median := Some mid_range |}
      | None =>
          Return {| status := UNKNOWN;
                    market_range := price_range;
                    offered_price := offered;
                    market_median := None |}
      end
  end.

Definition _calculate_total_hidden (hidden : hidden_costs_t) : Q :=
  (omo_onile hidden + land_survey hidden + flood_insurance hidden)%Q.

Definition _score_to_level (score : Z) : level :=
  if (80 <=? score)%Z then EXCELLENT_LEVEL
  else if (65 <=? score)%Z then GOOD_LEVEL
  else if (50 <=? score)%Z then MODERATE_LEVEL
  else POOR_LEVEL.

(** The weighted sum of [analyze_property], before it is rounded. *)
Definition weighted_smart_score (flood_risk security_score infrastructure_score : Z)
  : py float :=
  flood_safety <- Binary64.float_of_int (100 - flood_risk) ;;
  security_f <- Binary64.float_of_int security_score ;;
  infrastructure_f <- Binary64.float_of_int infrastructure_score ;;
  Return (flood_safety * 0.4 + security_f * 0.3 + infrastructure_f * 0.3)%float.

Definition risk_of_score (smart_score : float) : risk_tier :=
  if (80 <=? smart_score)%float then LOW
  else if (65 <=? smart_score)%float then MODERATE
  else HIGH.

Definition analyze_property (location : str) (price : Q) (property_type : str)
  : py (answer analysis) :=
  let location_key := _normalize_location location in
  match dict_get zones_data location_key with
  | None => Return (NotFound location get_available_locations)
  | Some zone =>
      let flood_risk := flood_score (flood_risk zone) in
      let security_score := security_score (security zone) in
      let infrastructure_score := infrastructure_score (infrastructure zone) in
      smart_score <- weighted_smart_score flood_risk security_score infrastructure_score ;;
      let avg_price_sqm := avg_price_per_sqm (market_data zone) in
      price_verdict <- _evaluate_price price avg_price_sqm location_key ;;
      let overall_risk := risk_of_score smart_score in
      Return (Found {|
        a_location := zone_location zone;
        a_property_type := property_type;
        a_price_offered := price;
        smart_score := round_ndigits smart_score 1;
        overall_risk := overall_risk;
        a_flood_score := flood_risk;
        a_security_score := security_score;
        a_infrastructure_score := infrastructure_score;
        a_infrastructure_level := _score_to_level infrastructure_score;
        price_analysis := price_verdict;
        a_monthly_generator := generator_diesel_monthly (hidden_costs zone);
        total_hidden := _calculate_total_hidden (hidden_costs zone);
        a_local_notes := notes zone |})
  end.

Definition roi_verdict_of (roi_percentage : Q) : roi_verdict :=
  if Qle_bool 80 roi_percentage then ROI_EXCELLENT
  else if Qle_bool 50 roi_percentage then ROI_GOOD
  else if Qle_bool 30 roi_percentage then ROI_FAIR
  else ROI_POOR.

Definition liquidity_of (days_to_sell : Z) : liquidity_t :=
  if (days_to_sell <? 90)%Z then High
  else if (days_to_sell <? 150)%Z then Moderate
  else Low.

Definition optional_fee (fee : option Q) : Q :=
  match fee with
  | Some v => v
  | None => 0
  end.

Definition calculate_roi (price : Q) (location : str) (holding_period : Z)
  : py (answer roi_report) :=
  let location_key := _normalize_location location in
  match dict_get zones_data location_key with
  | None => Return (NotFound location get_available_locations)
  | Some zone =>
      let rental_yield := rental_yield (market_data zone) in
      let appreciation_rate := appreciation_5yr (market_data zone) in
      let annual_rental_income := (price * rental_yield)%Q in
      let total_rental_income := (annual_rental_income * inject_Z holding_period)%Q in
      let appreciation_total := (appreciation_rate * inject_Z holding_period)%Q in
      let capital_gain := (price * appreciation_total)%Q in
      let hidden := hidden_costs zone in
      let one_time_costs := (omo_onile hidden + land_survey hidden)%Q in
      let monthly_costs := generator_diesel_monthly hidden in
      let annual_costs := (monthly_costs * 12 + flood_insurance hidden)%Q in
      let annual_costs :=
        match borehole_maintenance hidden with
        | Some fee => (annual_costs + fee)%Q
        | None => annual_costs
        end in
      let annual_costs :=
        match estate_service_charge hidden with
        | Some fee => (annual_costs + fee)%Q
        | None => annual_costs
        end in
      let total_recurring_costs := (annual_costs * inject_Z holding_period)%Q in
      let total_hidden_costs := (one_time_costs + total_recurring_costs)%Q in
      let gross_return := (total_rental_income + capital_gain)%Q in
      let net_return := (gross_return - total_hidden_costs)%Q in
      ratio <- py_div net_return price ;;
      let roi_percentage := (ratio * 100)%Q in
      let verdict := roi_verdict_of roi_percentage in
      annual_roi <- py_div roi_percentage (inject_Z holding_period) ;;
      Return (Found {|
        r_location := zone_location zone;
        investment_price := price;
        holding_period_years := holding_period;
        annual_rental_income := annual_rental_income;
        total_rental_income := total_rental_income;
        appreciation_total := appreciation_total;
        capital_gain := capital_gain;
        gross_return := gross_return;
        one_time_costs := one_time_costs;
        generator_fuel := (monthly_costs * 12)%Q;
        other_annual := (annual_costs - monthly_costs * 12 - flood_insurance hidden)%Q;
        annual_costs := annual_costs;
        total_recurring_costs := total_recurring_costs;
        total_hidden_costs := total_hidden_costs;
        net_return := net_return;
        roi_percentage := roi_percentage;
        verdict := verdict;
        annual_roi := annual_roi;
        liquidity := liquidity_of (days_to_sell_avg (market_data zone)) |})
  end.

End PropertyAnalyzer.

(** ** [route_search.py] *)

(** The functions of the [math] module, on real numbers. *)
Definition radians (x : R) : R := (x * PI / 180)%R.

Definition math_sqrt (x : R) : py R :=
  if Rlt_dec x 0 then Raise ValueError else Return (R_sqrt.sqrt x).

Definition math_atan2 (y x : R) : R :=
  if Rlt_dec 0 x then atan (y / x)
  else if Rlt_dec x 0 then
    (if Rle_dec 0 y then atan (y / x) + PI else atan (y / x) - PI)%R
  else if Rlt_dec 0 y then (PI / 2)%R
  else if Rlt_dec y 0 then (- PI / 2)%R
  else 0%R.

(** [round(x, 2)] on a real: the nearest multiple of 0.01, ties to even. *)
Definition round_half_even_R (x : R) : Z :=
  let n := Int_part x in
  let r := frac_part x in
  if Rlt_dec r (1 / 2) then n
  else if Rlt_dec (1 / 2) r then (n + 1)%Z
  else if Z.even n then n else (n + 1)%Z.

Definition round2 (x : R) : R := (IZR (round_half_even_R (x * 100)) / 100)%R.

Inductive route_info : Type :=
| RouteOK (distance_km duration_minutes : float)
| RouteNotFound
| RouteError (error : str).

(** The element of the answer of the Distance Matrix service the code reads
    (its status, the distance in metres, the duration in seconds), or the
    exception raised by the call or by the reading of its answer. *)
Inductive matrix_reply : Type :=
| MatrixElement (status_ok : bool) (distance_m duration_s : Z)
| MatrixException (message : str).

Record corridor_property : Type := {
  zone_name : str;
  cp_location : str;
  distance_from_origin_km : R;
  cp_coordinates : coordinates_t;
  price_per_sqm : Q;
  cp_price_range : str;
  cp_security_score : Z;
  flood_risk_score : Z;
  cp_infrastructure_score : Z;
  cp_rental_yield : Q;
  cp_appreciation_5yr : Q;
  cp_smart_score : Z
}.

Record corridor_report : Type := {
  route_origin : str;
  route_destination : str;
  route_distance_km : float;
  route_duration_minutes : float;
  param_corridor_width_km : Q;
  param_max_price_per_sqm : option Z;
  param_min_security_score : Z;
  param_max_flood_risk : Z;
  properties_found : nat;
  properties : list corridor_property
}.

(** The dictionary [search_route_corridor] returns: the one of a failed
    lookup or route, or the report with status OK. *)
Inductive search_result : Type :=
| SearchFailed (info : route_info)
| SearchOK (report : corridor_report).

Definition point : Type := (Q * Q)%type.

Definition exn_message (e : exn) : str :=
  match e with
  | KeyError => text "KeyError"
  | ZeroDivisionError => text "division by zero"
  | OverflowError => text "integer division result too large for a float"
  | ValueError => text "math domain error"
  end.

(** The quantity [a] of the haversine formula, and the latitudes of the
    globe. *)
Definition haversine_a (coord1 coord2 : point) : R :=
  let lat1 := radians (Q2R (fst coord1)) in
  let lng1 := radians (Q2R (snd coord1)) in
  let lat2 := radians (Q2R (fst coord2)) in
  let lng2 := radians (Q2R (snd coord2)) in
  (sin ((lat2 - lat1) / 2) ^ 2 + cos lat1 * cos lat2 * sin ((lng2 - lng1) / 2) ^ 2)%R.

(** The great-circle distance in km, rounded to 0.01 km: what
    [_calculate_distance] returns when it returns. *)
Definition haversine_km (coord1 coord2 : point) : R :=
  round2 (6371 * (2 * math_atan2 (R_sqrt.sqrt (haversine_a coord1 coord2))
                                 (R_sqrt.sqrt (1 - haversine_a coord1 coord2)))).

Definition valid_point (p : point) : Prop :=
  (- (90) <= fst p)%Q /\ (fst p <= 90)%Q.

(** [_calculate_distance]: the haversine formula, rounded to 0.01 km. *)
Definition _calculate_distance (coord1 coord2 : point) : py R :=
  let R := 6371%R in
  let '(lat1, lng1) := coord1 in
  let '(lat2, lng2) := coord2 in
  let lat1 := radians (Q2R lat1) in
  let lng1 := radians (Q2R lng1) in
  let lat2 := radians (Q2R lat2) in
  let lng2 := radians (Q2R lng2) in
  let dlat := (lat2 - lat1)%R in
  let dlng := (lng2 - lng1)%R in
  let a := (sin (dlat / 2) ^ 2 + cos lat1 * cos lat2 * sin (dlng / 2) ^ 2)%R in
  sqrt_a <- math_sqrt a ;;
  sqrt_1a <- math_sqrt (1 - a) ;;
  let c := (2 * math_atan2 sqrt_a sqrt_1a)%R in
  Return (round2 (R * c)).

Definition _is_along_route (origin destination point : point) (corridor_width_km : Q)
  : py bool :=
  dist_origin_point <- _calculate_distance origin point ;;
  dist_point_dest <- _calculate_distance point destination ;;
  dist_origin_dest <- _calculate_distance origin destination ;;
  let total_via_point := (dist_origin_point + dist_point_dest)%R in
  let detour := Rabs (total_via_point - dist_origin_dest) in
  Return (if Rle_dec detour (Q2R corridor_width_km) then true else false).

(** [_calculate_smart_score]: the corridor weights, rounded to an [int]. *)
Definition _calculate_smart_score (zone_data : zone) : py Z :=
  security_f <- Binary64.float_of_int (security_score (security zone_data)) ;;
  infrastructure_f <-
    Binary64.float_of_int (infrastructure_score (infrastructure zone_data)) ;;
  flood_risk_f <- Binary64.float_of_int (100 - flood_score (flood_risk zone_data)) ;;
  let smart_score :=
    (security_f * 0.35 + infrastructure_f * 0.35 + flood_risk_f * 0.30)%float in
  round_to_int smart_score.

(** [list.sort(key=distance)]: a stable sort. *)
Fixpoint insert_by_distance (p : corridor_property) (l : list corridor_property)
  : list corridor_property :=
  match l with
  | [] => [p]
  | q :: l' =>
      if Rlt_dec (distance_from_origin_km q) (distance_from_origin_km p)
      then q :: insert_by_distance p l'
      else p :: l
  end.

Definition sort_by_distance (l : list corridor_property) : list corridor_property :=
  fold_right insert_by_distance [] l.

(** The test [max_price_per_sqm and price > max_price_per_sqm]: [None] and
    [0] are both false in a condition. *)
Definition over_price_ceiling (max_price_per_sqm : option Z) (price : Q) : bool :=
  match max_price_per_sqm with
  | None => false
  | Some m => negb (m =? 0)%Z && Qlt_bool (inject_Z m) price
  end.

(** The three filters of [search_route_corridor], taken together, and the
    record the loop appends for a zone it keeps. *)
Definition passes_filters (max_price_per_sqm : option Z)
    (min_security_score max_flood_risk : Z) (zone_data : zone) : bool :=
  negb (over_price_ceiling max_price_per_sqm (avg_price_per_sqm (market_data zone_data)))
  && negb (security_score (security zone_data) <? min_security_score)%Z
  && negb (flood_score (flood_risk zone_data) >? max_flood_risk)%Z.

Definition corridor_entry (name : str) (zone_data : zone) (from_origin : R) (smart : Z)
  : corridor_property :=
  {| zone_name := name;
     cp_location := zone_location zone_data;
     distance_from_origin_km := from_origin;
     cp_coordinates := coordinates zone_data;
     price_per_sqm := avg_price_per_sqm (market_data zone_data);
     cp_price_range := price_range (market_data zone_data);
     cp_security_score := security_score (security zone_data);
     flood_risk_score := flood_score (flood_risk zone_data);
     cp_infrastructure_score := infrastructure_score (infrastructure zone_data);
     cp_rental_yield := rental_yield (market_data zone_data);
     cp_appreciation_5yr := appreciation_5yr (market_data zone_data);
     cp_smart_score := smart |}.

Definition zone_point (zone_data : zone) : point :=
  (lat (coordinates zone_data), lng (coordinates zone_data)).

(** A record of the repository that respects the invariant of the data
    model: a latitude of the globe and three scores of [0, 100]. *)
Definition valid_zone (zone_data : zone) : Prop :=
  valid_point (zone_point zone_data) /\
  (0 <= flood_score (flood_risk zone_data) <= 100)%Z /\
  (0 <= security_score (security zone_data) <= 100)%Z /\
  (0 <= infrastructure_score (infrastructure zone_data) <= 100)%Z.

Definition valid_zones (zs : zones_t) : Prop :=
  Forall (fun entry => valid_zone (snd entry)) zs.

Section RouteSearcher.

(** [self.zones_data.get('zones', {})] and the two services of the Google
    Maps client the class calls. *)
Variable zones : zones_t.
Variable gmaps_geocode : str -> option point.
Variable gmaps_distance_matrix : point -> point -> matrix_reply.

Definition _get_coordinates (location : str) : option point :=
  match dict_get zones location with
  | Some z => Some (lat (coordinates z), lng (coordinates z))
  | None => gmaps_geocode (location ++ text ", Nigeria")
  end.

Definition _get_route_details (origin_coords dest_coords : point) : route_info :=
  match gmaps_distance_matrix origin_coords dest_coords with
  | MatrixException message => RouteError message
  | MatrixElement false _ _ => RouteNotFound
  | MatrixElement true distance_m duration_s =>
      match Binary64.int_true_div distance_m 1000,
            Binary64.int_true_div duration_s 60 with
      | Return km, Return minutes =>
          RouteOK (round_ndigits km 2) (round_ndigits minutes 1)
      | Raise e, _ => RouteError (exn_message e)
      | _, Raise e => RouteError (exn_message e)
      end
  end.

(** The loop over the zones of [search_route_corridor]. *)
Fixpoint corridor_loop (origin_coords dest_coords : point) (corridor_width_km : Q)
    (max_price_per_sqm : option Z) (min_security_score max_flood_risk : Z)
    (zs : zones_t) : py (list corridor_property) :=
  match zs with
  | [] => Return []
  | (zone_name, zone_data) :: rest =>
      let continue := corridor_loop origin_coords dest_coords corridor_width_km
                        max_price_per_sqm min_security_score max_flood_risk rest in
      let zone_coords := coordinates zone_data in
      along <- _is_along_route origin_coords dest_coords
                 (lat zone_coords, lng zone_coords) corridor_width_km ;;
      if along then
        let market_data := market_data zone_data in
        let security := security_score (security zone_data) in
        let flood_risk := flood_score (flood_risk zone_data) in
        let price := avg_price_per_sqm market_data in
        if over_price_ceiling max_price_per_sqm price then continue
        else if (security <? min_security_score)%Z then continue
        else if (flood_risk >? max_flood_risk)%Z then continue
        else
          from_origin <- _calculate_distance origin_coords
                           (lat zone_coords, lng zone_coords) ;;
          smart <- _calculate_smart_score zone_data ;;
          others <- continue ;;
          Return ({| zone_name := zone_name;
                     cp_location := zone_location zone_data;
                     distance_from_origin_km := from_origin;
                     cp_coordinates := zone_coords;
                     price_per_sqm := price;
                     cp_price_range := price_range market_data;
                     cp_security_score := security;
                     flood_risk_score := flood_risk;
                     cp_infrastructure_score :=
                       infrastructure_score (infrastructure zone_data);
                     cp_rental_yield := rental_yield market_data;
                     cp_appreciation_5yr := appreciation_5yr market_data;
                     cp_smart_score := smart |} :: others)
      else continue
  end.

Definition search_route_corridor (origin destination : str) (corridor_width_km : Q)
    (max_price_per_sqm : option Z) (min_security_score max_flood_risk : Z)
  : py search_result :=
  match _get_coordinates origin, _get_coordinates destination with
  | Some origin_coords, Some dest_coords =>
      match _get_route_details origin_coords dest_coords with
      | RouteOK distance_km duration_minutes =>
          corridor_properties <-
            corridor_loop origin_coords dest_coords corridor_width_km
              max_price_per_sqm min_security_score max_flood_risk zones ;;
          let corridor_properties := sort_by_distance corridor_properties in
          Return (SearchOK {|
            route_origin := origin;
            route_destination := destination;
            route_distance_km := distance_km;
            route_duration_minutes := duration_minutes;
            param_corridor_width_km := corridor_width_km;
            param_max_price_per_sqm := max_price_per_sqm;
            param_min_security_score := min_security_score;
            param_max_flood_risk := max_flood_risk;
            properties_found := length corridor_properties;
            properties := corridor_properties |})
      | route_info => Return (SearchFailed route_info)
      end
  | _, _ =>
      Return (SearchFailed
        (RouteError (text "Could not find coordinates for origin or destination")))
  end.

Definition sqm_estimate (bedrooms : Z) : Z :=
  match bedrooms with
  | 2 => 80
  | 3 => 120
  | 4 => 160
  | 5 => 200
  | _ => 120
  end%Z.

Definition search_by_budget_along_route (origin destination : str) (budget : Z)
    (bedrooms : Z) (corridor_width_km : Q) : py search_result :=
  let estimated_sqm := sqm_estimate bedrooms in
  max_price_per_sqm <- Binary64.int_true_div budget estimated_sqm ;;
  ceiling <- int_of_float max_price_per_sqm ;;
  search_route_corridor origin destination corridor_width_km (Some ceiling) 50 70.

End RouteSearcher.

(** ** The grid of valid scores

    The scores of a valid record are integers of [0, 100], so each smart
    score takes finitely many binary64 values.  They are tabulated here in
    two steps (the sums of two weighted terms, then of three), each sum
    with the exact integer it approximates, scaled by the weights'
    denominator. *)

Definition wterm : Type := (Z * float)%type.

Definition wterm_eqb (a b : wterm) : bool :=
  (fst a =? fst b)%Z && PrimFloat.Leibniz.eqb (snd a) (snd b).

Definition wterm_add (a b : wterm) : wterm :=
  ((fst a + fst b)%Z, (snd a + snd b)%float).

Definition table : Type := PositiveMap.t (list wterm).

Definition slot (n : Z) : positive := Z.to_pos (n + 1).

Definition table_mem (M : table) (p : wterm) : bool :=
  match PositiveMap.find (slot (fst p)) M with
  | Some ps => existsb (wterm_eqb p) ps
  | None => false
  end.

Definition table_add (M : table) (p : wterm) : table :=
  if table_mem M p then M
  else
    PositiveMap.add (slot (fst p))
      (p :: match PositiveMap.find (slot (fst p)) M with
            | Some ps => ps
            | None => []
            end) M.

Definition table_of (l : list wterm) : table :=
  fold_left table_add l (PositiveMap.empty (list wterm)).

Definition table_entries (M : table) : list wterm :=
  flat_map snd (PositiveMap.elements M).

Definition sums (A B : list wterm) : list wterm :=
  flat_map (fun a => map (wterm_add a) B) A.

Definition valid_scores : list Z := map Z.of_nat (seq 0 101).

(** [weighted k w] lists the terms [n * w] of the integers [n] of [0, 100],
    [k] being the numerator of the weight [w]. *)
Definition weighted (k : Z) (w : float) : list wterm :=
  map (fun n => ((k * n)%Z, (Binary64.of_int n * w)%float)) valid_scores.

Definition analyzer_pairs : table :=
  Eval vm_compute in table_of (sums (weighted 4 0.4) (weighted 3 0.3)).

Definition analyzer_triples : table :=
  Eval vm_compute in
    table_of (sums (table_entries analyzer_pairs) (weighted 3 0.3)).

Definition route_pairs : table :=
  Eval vm_compute in table_of (sums (weighted 35 0.35) (weighted 35 0.35)).

Definition route_triples : table :=
  Eval vm_compute in
    table_of (sums (table_entries route_pairs) (weighted 30 0.30)).

Definition risk_of_tenths (n : Z) : risk_tier :=
  if (800 <=? n)%Z then LOW
  else if (650 <=? n)%Z then MODERATE
  else HIGH.

Definition risk_eqb (a b : risk_tier) : bool :=
  match a, b with
  | LOW, LOW | MODERATE, MODERATE | HIGH, HIGH => true
  | _, _ => false
  end.

(** What is checked of a value [x] of the analyzer's weighted sum, [n]
    being ten times its exact value: rounding to one decimal gives the
    binary64 of the decimal [n / 10] (which is also the quotient of the
    floats [n] and [10]), and the tier read off [x] is the one of [n / 10],
    and also the one read off the rounded score. *)
Definition analyzer_check (p : wterm) : bool :=
  let '(n, x) := p in
  let shown := round_ndigits x 1 in
  PrimFloat.Leibniz.eqb shown (Binary64.nearest_quotient n 10)
  && PrimFloat.Leibniz.eqb shown (Binary64.of_int n / 10)%float
  && risk_eqb (risk_of_score x) (risk_of_tenths n)
  && risk_eqb (risk_of_score shown) (risk_of_tenths n).

(** What is checked of a value [x] of the corridor's weighted sum, [n] being
    a hundred times its exact value: it rounds to an integer of [0, 100]
    within one half of [n / 100]. *)
Definition route_check (p : wterm) : bool :=
  let '(n, x) := p in
  match round_to_int x with
  | Return r => (0 <=? r)%Z && (r <=? 100)%Z && (Z.abs (100 * r - n) <=? 50)%Z
  | Raise _ => false
  end.

(** ** A sample repository

    Two zones in the format of [data/zones.json], to run the operations on;
    the figures are illustrative, the scores and the price range of Ajah
    being those of the examples of the specification.  The tables of
    characters below are the ASCII part of the Unicode ones. *)

Definition ascii_lower (s : str) : str :=
  map (fun c => if ((65 <=? c) && (c <=? 90))%N then (c + 32)%N else c) s.

Definition ascii_digit (c : char) : option N :=
  if ((48 <=? c) && (c <=? 57))%N then Some (c - 48)%N else None.

Definition ascii_space (c : char) : bool :=
  ((c =? 32) || ((9 <=? c) && (c <=? 13)))%N.

Definition ajah : zone := {|
  zone_location := text "Ajah, Lagos";
  coordinates := {| lat := 6.4698; lng := 3.5852 |};
  flood_risk := {| flood_score := 75; flood_level := text "HIGH" |};
  security := {| security_score := 55; security_level := text "MODERATE" |};
  infrastructure := {| infrastructure_score := 60 |};
  market_data := {|
    avg_price_per_sqm := 180000;
    price_range := text "₦25M - ₦60M (3-bedroom)";
    appreciation_5yr := 0.08;
    rental_yield := 0.06;
    days_to_sell_avg := 120;
    demand_level := text "HIGH" |};
  hidden_costs := {|
    omo_onile := 500000;
    land_survey := 150000;
    flood_insurance := 200000;
    generator_diesel_monthly := 80000;
    borehole_maintenance := Some 50000%Q;
    estate_service_charge := None |};
  notes := text "Flood-prone in rainy season"
|}.

Definition lekki_phase_1 : zone := {|
  zone_location := text "Lekki Phase 1, Lagos";
  coordinates := {| lat := 6.4478; lng := 3.4723 |};
  flood_risk := {| flood_score := 45; flood_level := text "MODERATE" |};
  security := {| security_score := 80; security_level := text "HIGH" |};
  infrastructure := {| infrastructure_score := 85 |};
  market_data := {|
    avg_price_per_sqm := 450000;
    price_range := text "₦80M - ₦250M (3-bedroom)";
    appreciation_5yr := 0.12;
    rental_yield := 0.05;
    days_to_sell_avg := 75;
    demand_level := text "VERY HIGH" |};
  hidden_costs := {|
    omo_onile := 0;
    land_survey := 200000;
    flood_insurance := 150000;
    generator_diesel_monthly := 120000;
    borehole_maintenance := None;
    estate_service_charge := Some 600000%Q |};
  notes := text "Premium estate area"
|}.

Definition sample_zones : zones_t :=
  [(text "Ajah", ajah); (text "Lekki Phase 1", lekki_phase_1)].


(** The services of the sample: no geocoder, and a route of 14.2 km and 26
    minutes whatever the two points. *)
Definition no_geocoder : str -> option point := fun _ => None.

Definition sample_matrix : point -> point -> matrix_reply :=
  fun _ _ => MatrixElement true 14200 1560.

(** The answer [res] with [m] as the echoed price ceiling. *)
Definition echo_ceiling (m : option Z) (res : py search_result) : py search_result :=
  match res with
  | Return (SearchOK r) =>
      Return (SearchOK {|
        route_origin := route_origin r;
        route_destination := route_destination r;
        route_distance_km := route_distance_km r;
        route_duration_minutes := route_duration_minutes r;
        param_corridor_width_km := param_corridor_width_km r;
        param_max_price_per_sqm := m;
        param_min_security_score := param_min_security_score r;
        param_max_flood_risk := param_max_flood_risk r;
        properties_found := properties_found r;
        properties := properties r |})
  | other => other
  end.

(** The budgets the check of [search_by_budget_along_route] runs over. *)
Definition small_budgets : list Z := map (fun n => (Z.of_nat n - 200)%Z) (seq 0 401).

Definition budget_check (estimated_sqm budget : Z) : bool :=
  if (Z.abs budget <? estimated_sqm)%Z then
    match (max_price_per_sqm <- Binary64.int_true_div budget estimated_sqm ;;
           int_of_float max_price_per_sqm) with
    | Return 0%Z => true
    | _ => false
    end
  else true.

(** ** [compare_routes] and the callers *)

Record route_comparison : Type := {
  rc_destination : str;
  rc_distance_km : float;
  rc_duration_minutes : float;
  rc_properties_found : nat;
  rc_avg_price_per_sqm : Z;
  best_property : option corridor_property
}.

(** [_calculate_avg_price]: the mean price per sqm of the matches, rounded
    to an [int]; 0 for no match.  The prices are rationals, as everywhere
    else, and so is their mean. *)
Definition _calculate_avg_price (properties : list corridor_property) : Z :=
  match properties with
  | [] => 0%Z
  | _ :: _ =>
      let total := fold_left (fun acc p => (acc + price_per_sqm p)%Q) properties 0%Q in
      round_half_even (total / inject_Z (Z.of_nat (length properties)))
  end.

(** [list.sort(key=properties_found, reverse=True)]: a stable sort, the
    larger counts first. *)
Fixpoint insert_by_count (c : route_comparison) (l : list route_comparison)
  : list route_comparison :=
  match l with
  | [] => [c]
  | d :: l' =>
      if (rc_properties_found c <? rc_properties_found d)%nat
      then d :: insert_by_count c l'
      else c :: l
  end.

Definition sort_by_count (l : list route_comparison) : list route_comparison :=
  fold_right insert_by_count [] l.

Section RouteComparison.

Variable zones : zones_t.
Variable gmaps_geocode : str -> option point.
Variable gmaps_distance_matrix : point -> point -> matrix_reply.

(** The loop over the destinations of [compare_routes]. *)
Fixpoint compare_loop (origin : str) (destinations : list str)
  : py (list route_comparison) :=
  match destinations with
  | [] => Return []
  | dest :: rest =>
      result <- search_route_corridor zones gmaps_geocode gmaps_distance_matrix
                  origin dest 5 None 50 70 ;;
      others <- compare_loop origin rest ;;
      match result with
      | SearchOK report =>
          Return ({| rc_destination := dest;
                     rc_distance_km := route_distance_km report;
                     rc_duration_minutes := route_duration_minutes report;
                     rc_properties_found := properties_found report;
                     rc_avg_price_per_sqm :=
                       match properties report with
                       | [] => 0%Z
                       | _ :: _ => _calculate_avg_price (properties report)
                       end;
                     best_property := hd_error (properties report) |} :: others)
      | SearchFailed _ => Return others
      end
  end.

Definition compare_routes (origin : str) (destinations : list str)
  : py (list route_comparison) :=
  comparisons <- compare_loop origin destinations ;;
  Return (sort_by_count comparisons).

End RouteComparison.



Section WhatsAppBot.

(** The route searcher of the bot, when it has one, with its repository
    and services. *)
Variable zones : zones_t.
Variable gmaps_geocode : str -> option point.
Variable gmaps_distance_matrix : point -> point -> matrix_reply.
Variable route_searcher : bool.

(** What the handler relies on and is not modelled: the search of the
    compiled [route_pattern] (its two groups), [str.strip], [_extract_price],
    the text of an exception, and the listing of the matches written at the
    end of the handler. *)
Variable route_pattern_search : str -> option (str * str).
Variable str_strip : str -> str.
Variable _extract_price : str -> option Z.
Variable str_of_exception : exn -> str.
Variable format_listing : str -> str -> option Z -> list corridor_property -> str.


End WhatsAppBot.

(** * Properties *)

(** Linear arithmetic on [Q]; [lra] and [nra] are the ones of [R]. *)
Ltac lraQ := Lqa.lra.

(** ** The operations on the sample *)

Example normalize_location_exact :
  _normalize_location ascii_lower sample_zones (text "Ajah") = text "Ajah".
Proof. reflexivity. Qed.

Example normalize_location_case :
  _normalize_location ascii_lower sample_zones (text "LEKKI phase 1")
  = text "Lekki Phase 1".
Proof. reflexivity. Qed.

Example normalize_location_partial :
  _normalize_location ascii_lower sample_zones (text "lekki") = text "Lekki Phase 1".
Proof. reflexivity. Qed.

Example normalize_location_unknown :
  _normalize_location ascii_lower sample_zones (text "Ikoyi") = text "Ikoyi".
Proof. reflexivity. Qed.

Example analyze_property_unknown :
  analyze_property ascii_lower ascii_digit ascii_space sample_zones
    (text "Ikoyi") 400000000 (text "3-bedroom")
  = Return (NotFound (text "Ikoyi") [text "Ajah"; text "Lekki Phase 1"]).
Proof. reflexivity. Qed.

Example search_range_ajah :
  search_range ascii_digit ascii_space (text "₦25M - ₦60M (3-bedroom)")
  = Some (text "25", text "60").
Proof. reflexivity. Qed.

Example search_range_leftmost :
  search_range ascii_digit ascii_space (text "from ₦₦5M-₦6M to ₦12M  -  ₦345M")
  = Some (text "5", text "6").
Proof. reflexivity. Qed.

Example search_range_en_dash :
  search_range ascii_digit ascii_space (text "₦25M – ₦60M") = None.
Proof. reflexivity. Qed.

Example weighted_smart_score_ajah :
  weighted_smart_score 75 55 60 = Return 44.5%float.
Proof. vm_compute. reflexivity. Qed.

Example calculate_smart_score_tie :
  (Binary64.of_int 51 * 0.35 + Binary64.of_int 39 * 0.35 + Binary64.of_int 0 * 0.30)%float
  = 31.499999999999996%float /\
  round_to_int 31.499999999999996%float = Return 31%Z.
Proof. split; vm_compute; reflexivity. Qed.

Example round_ndigits_ties :
  round_ndigits 2.675 2 = 2.67%float /\ round_ndigits 0.125 2 = 0.12%float /\
  round_ndigits 0.375 2 = 0.38%float /\ round_to_int 2.5 = Return 2%Z.
Proof. repeat split; vm_compute; reflexivity. Qed.

Example calculate_roi_lekki :
  exists r, calculate_roi ascii_lower sample_zones 120000000 (text "Lekki Phase 1") 5
            = Return (Found r) /\
            (total_hidden_costs r == 11150000)%Q /\ (net_return r == 90850000)%Q /\
            verdict r = ROI_GOOD /\ liquidity r = High.
Proof. eexists. split; [vm_compute; reflexivity|]. repeat split. Qed.

Example route_details_sample :
  _get_route_details sample_matrix (zone_point ajah) (zone_point lekki_phase_1)
  = RouteOK 14.2 26.
Proof. vm_compute. reflexivity. Qed.

(** ** The error monad *)

Lemma bind_Return {A B : Type} (m : py A) (k : A -> py B) (b : B) :
  bind m k = Return b -> exists a, m = Return a /\ k a = Return b.
Proof.
  destruct m as [a|e]; simpl; intros H.
  - exists a. split; [reflexivity | exact H].
  - discriminate H.
Qed.

(** ** The grid of valid scores *)

Lemma wterm_eqb_eq (a b : wterm) : wterm_eqb a b = true -> a = b.
Proof.
  destruct a as [n x], b as [m y]. unfold wterm_eqb. simpl.
  intros H. apply andb_true_iff in H. destruct H as [Hn Hx].
  apply Z.eqb_eq in Hn. apply FloatAxioms.Leibniz.eqb_spec in Hx.
  subst. reflexivity.
Qed.

Lemma table_mem_In (M : table) (p : wterm) :
  table_mem M p = true -> In p (table_entries M).
Proof.
  unfold table_mem, table_entries.
  destruct (PositiveMap.find (slot (fst p)) M) as [ps|] eqn:Hfind; [|discriminate].
  intros H. apply existsb_exists in H. destruct H as [q [Hq Heq]].
  apply wterm_eqb_eq in Heq. subst q.
  apply in_flat_map. exists (slot (fst p), ps). split.
  - apply PositiveMap.elements_correct. exact Hfind.
  - exact Hq.
Qed.

Lemma sums_In (A B : list wterm) (a b : wterm) :
  In a A -> In b B -> In (wterm_add a b) (sums A B).
Proof.
  intros Ha Hb. unfold sums. apply in_flat_map. exists a. split; [exact Ha|].
  apply in_map. exact Hb.
Qed.

(** Three lists of weighted terms are covered by two tables: what holds of
    every entry of the second table holds of every sum of three terms. *)
Lemma grid_cover (T1 T2 T3 : list wterm) (M1 M2 : table) (check : wterm -> bool) :
  forallb (table_mem M1) (sums T1 T2) = true ->
  forallb (table_mem M2) (sums (table_entries M1) T3) = true ->
  forallb check (table_entries M2) = true ->
  forall a b c, In a T1 -> In b T2 -> In c T3 ->
  check (wterm_add (wterm_add a b) c) = true.
Proof.
  intros H1 H2 H3 a b c Ha Hb Hc.
  rewrite forallb_forall in H1, H2, H3.
  apply H3, table_mem_In, H2, sums_In; [|exact Hc].
  apply table_mem_In, H1, sums_In; assumption.
Qed.

Lemma valid_scores_In (n : Z) : (0 <= n <= 100)%Z -> In n valid_scores.
Proof.
  intros H. unfold valid_scores.
  replace n with (Z.of_nat (Z.to_nat n)) by lia.
  apply in_map, in_seq. lia.
Qed.

Lemma weighted_In (k : Z) (w : float) (n : Z) :
  (0 <= n <= 100)%Z -> In ((k * n)%Z, (Binary64.of_int n * w)%float) (weighted k w).
Proof.
  intros H. unfold weighted.
  apply (in_map (fun n => ((k * n)%Z, (Binary64.of_int n * w)%float))).
  apply valid_scores_In. exact H.
Qed.

Lemma float_of_int_valid (n : Z) :
  (0 <= n <= 100)%Z -> Binary64.float_of_int n = Return (Binary64.of_int n).
Proof.
  intros H.
  assert (Hall : forallb (fun n => negb (PrimFloat.is_infinity (Binary64.of_int n)))
                   valid_scores = true) by (vm_compute; reflexivity).
  rewrite forallb_forall in Hall. specialize (Hall n (valid_scores_In n H)).
  unfold Binary64.float_of_int.
  destruct (PrimFloat.is_infinity (Binary64.of_int n)); [discriminate Hall | reflexivity].
Qed.

Lemma analyzer_pairs_cover :
  forallb (table_mem analyzer_pairs) (sums (weighted 4 0.4) (weighted 3 0.3)) = true.
Proof. vm_compute. reflexivity. Qed.

Lemma analyzer_triples_cover :
  forallb (table_mem analyzer_triples)
    (sums (table_entries analyzer_pairs) (weighted 3 0.3)) = true.
Proof. vm_compute. reflexivity. Qed.

Lemma analyzer_triples_checked :
  forallb analyzer_check (table_entries analyzer_triples) = true.
Proof. vm_compute. reflexivity. Qed.

Lemma route_pairs_cover :
  forallb (table_mem route_pairs) (sums (weighted 35 0.35) (weighted 35 0.35)) = true.
Proof. vm_compute. reflexivity. Qed.

Lemma route_triples_cover :
  forallb (table_mem route_triples)
    (sums (table_entries route_pairs) (weighted 30 0.30)) = true.
Proof. vm_compute. reflexivity. Qed.

Lemma route_triples_checked :
  forallb route_check (table_entries route_triples) = true.
Proof. vm_compute. reflexivity. Qed.

(** On valid scores the weighted sum of [analyze_property] is computed
    without an exception, and its value passes [analyzer_check]. *)
Lemma weighted_smart_score_valid (f s i : Z) :
  (0 <= f <= 100)%Z -> (0 <= s <= 100)%Z -> (0 <= i <= 100)%Z ->
  exists x, weighted_smart_score f s i = Return x /\
            analyzer_check ((4 * (100 - f) + 3 * s + 3 * i)%Z, x) = true.
Proof.
  intros Hf Hs Hi. unfold weighted_smart_score.
  rewrite !float_of_int_valid by lia. simpl.
  eexists. split; [reflexivity|].
  apply (grid_cover _ _ _ _ _ analyzer_check
           analyzer_pairs_cover analyzer_triples_cover analyzer_triples_checked
           ((4 * (100 - f))%Z, (Binary64.of_int (100 - f) * 0.4)%float)
           ((3 * s)%Z, (Binary64.of_int s * 0.3)%float)
           ((3 * i)%Z, (Binary64.of_int i * 0.3)%float));
    apply weighted_In; lia.
Qed.

(** On valid scores [_calculate_smart_score] returns, and its value passes
    [route_check]. *)
Lemma route_smart_score_valid (z : zone) :
  (0 <= flood_score (flood_risk z) <= 100)%Z ->
  (0 <= security_score (security z) <= 100)%Z ->
  (0 <= infrastructure_score (infrastructure z) <= 100)%Z ->
  exists r, _calculate_smart_score z = Return r /\
    (0 <= r <= 100)%Z /\
    (Z.abs (100 * r - (35 * security_score (security z)
                       + 35 * infrastructure_score (infrastructure z)
                       + 30 * (100 - flood_score (flood_risk z)))) <= 50)%Z.
Proof.
  intros Hf Hs Hi. unfold _calculate_smart_score.
  rewrite !float_of_int_valid by lia. simpl.
  pose proof (grid_cover _ _ _ _ _ route_check
           route_pairs_cover route_triples_cover route_triples_checked
           ((35 * security_score (security z))%Z,
            (Binary64.of_int (security_score (security z)) * 0.35)%float)
           ((35 * infrastructure_score (infrastructure z))%Z,
            (Binary64.of_int (infrastructure_score (infrastructure z)) * 0.35)%float)
           ((30 * (100 - flood_score (flood_risk z)))%Z,
            (Binary64.of_int (100 - flood_score (flood_risk z)) * 0.30)%float)) as H.
  specialize (H ltac:(apply weighted_In; lia) ltac:(apply weighted_In; lia)
                ltac:(apply weighted_In; lia)).
  unfold route_check, wterm_add in H. simpl in H.
  destruct (round_to_int _) as [r|e]; [|discriminate H].
  exists r. split; [reflexivity|].
  apply andb_true_iff in H. destruct H as [H H3].
  apply andb_true_iff in H. destruct H as [H1 H2]. lia.
Qed.

Lemma risk_eqb_eq (a b : risk_tier) : risk_eqb a b = true -> a = b.
Proof. destruct a, b; simpl; intros H; try reflexivity; discriminate H. Qed.

Lemma tenths_le (k n : Z) : (inject_Z k <= inject_Z n / 10)%Q <-> (10 * k <= n)%Z.
Proof.
  unfold Qle, Qdiv, Qmult, Qinv, inject_Z. cbn [Qnum Qden]. lia.
Qed.

Lemma tenths_lt (k n : Z) : (inject_Z n / 10 < inject_Z k)%Q <-> (n < 10 * k)%Z.
Proof.
  unfold Qlt, Qdiv, Qmult, Qinv, inject_Z. cbn [Qnum Qden]. lia.
Qed.

Lemma risk_of_tenths_spec (n : Z) :
  (risk_of_tenths n = LOW <-> (80 <= inject_Z n / 10)%Q) /\
  (risk_of_tenths n = MODERATE <->
     (65 <= inject_Z n / 10)%Q /\ (inject_Z n / 10 < 80)%Q) /\
  (risk_of_tenths n = HIGH <-> (inject_Z n / 10 < 65)%Q).
Proof.
  change 80%Q with (inject_Z 80). change 65%Q with (inject_Z 65).
  rewrite !tenths_le, !tenths_lt. unfold risk_of_tenths.
  destruct (800 <=? n)%Z eqn:H1; [apply Z.leb_le in H1 | apply Z.leb_gt in H1];
    [|destruct (650 <=? n)%Z eqn:H2; [apply Z.leb_le in H2 | apply Z.leb_gt in H2]];
    repeat split; intros; try discriminate; try reflexivity; try lia.
Qed.

(** What [analyze_property] returns on a zone of the repository, once the
    weighted sum is computed. *)
Lemma analyze_property_run
    (str_lower : str -> str) (unicode_digit : char -> option N)
    (unicode_space : char -> bool) (zones_data : zones_t)
    (location : str) (price : Q) (property_type : str) (z : zone) (x : float) :
  dict_get zones_data (_normalize_location str_lower zones_data location) = Some z ->
  weighted_smart_score (flood_score (flood_risk z)) (security_score (security z))
    (infrastructure_score (infrastructure z)) = Return x ->
  exists v : price_verdict,
    analyze_property str_lower unicode_digit unicode_space zones_data
      location price property_type
    = Return (Found {|
        a_location := zone_location z;
        a_property_type := property_type;
        a_price_offered := price;
        smart_score := round_ndigits x 1;
        overall_risk := risk_of_score x;
        a_flood_score := flood_score (flood_risk z);
        a_security_score := security_score (security z);
        a_infrastructure_score := infrastructure_score (infrastructure z);
        a_infrastructure_level :=
          _score_to_level (infrastructure_score (infrastructure z));
        price_analysis := v;
        a_monthly_generator := generator_diesel_monthly (hidden_costs z);
        total_hidden := _calculate_total_hidden (hidden_costs z);
        a_local_notes := notes z |}).
Proof.
  intros Hget Hx. unfold analyze_property. rewrite Hget, Hx. cbn [bind].
  unfold _evaluate_price. rewrite Hget.
  destruct (search_range unicode_digit unicode_space (price_range (market_data z)))
    as [[lo hi]|]; eexists; reflexivity.
Qed.

(** C1. For every locality record whose three scores are integers of
    [0, 100], [analyze_property] returns the smart score
    [(100 - flood) * 0.4 + security * 0.3 + infrastructure * 0.3] rounded to
    one decimal (the weighted sum has exactly one decimal, and the binary64
    returned is the one of that decimal), with the tier LOW iff the score is
    at least 80, MODERATE iff it is at least 65 and below 80, HIGH
    otherwise; the tier is the same whether read off the score before or
    after rounding.  Any record with the scores 75, 55 and 60 gets the score
    44.5 and the tier HIGH. *)
Theorem analyze_property_smart_score
    (str_lower : str -> str) (unicode_digit : char -> option N)
    (unicode_space : char -> bool) (zones_data : zones_t)
    (location : str) (price : Q) (property_type : str) (z : zone) :
  dict_get zones_data (_normalize_location str_lower zones_data location) = Some z ->
  let f := flood_score (flood_risk z) in
  let s := security_score (security z) in
  let i := infrastructure_score (infrastructure z) in
  (0 <= f <= 100)%Z -> (0 <= s <= 100)%Z -> (0 <= i <= 100)%Z ->
  let tenths := (4 * (100 - f) + 3 * s + 3 * i)%Z in
  exists (a : analysis) (x : float),
    analyze_property str_lower unicode_digit unicode_space zones_data
      location price property_type = Return (Found a) /\
    weighted_smart_score f s i = Return x /\
    x = (Binary64.of_int (100 - f) * 0.4 + Binary64.of_int s * 0.3
         + Binary64.of_int i * 0.3)%float /\
    smart_score a = round_ndigits x 1 /\
    (inject_Z (100 - f) * 0.4 + inject_Z s * 0.3 + inject_Z i * 0.3
       == inject_Z tenths / 10)%Q /\
    smart_score a = Binary64.nearest_quotient tenths 10 /\
    smart_score a = (Binary64.of_int tenths / 10)%float /\
    (overall_risk a = LOW <-> (80 <= inject_Z tenths / 10)%Q) /\
    (overall_risk a = MODERATE <->
       (65 <= inject_Z tenths / 10)%Q /\ (inject_Z tenths / 10 < 80)%Q) /\
    (overall_risk a = HIGH <-> (inject_Z tenths / 10 < 65)%Q) /\
    overall_risk a = risk_of_score (smart_score a) /\
    (f = 75%Z -> s = 55%Z -> i = 60%Z ->
       smart_score a = 44.5%float /\ overall_risk a = HIGH).
Proof.
  intros Hget f s i Hf Hs Hi tenths.
  destruct (weighted_smart_score_valid f s i Hf Hs Hi) as [x [Hx Hcheck]].
  fold tenths in Hcheck. unfold analyzer_check in Hcheck.
  apply andb_true_iff in Hcheck. destruct Hcheck as [Hcheck Hshown].
  apply andb_true_iff in Hcheck. destruct Hcheck as [Hcheck Hrisk].
  apply andb_true_iff in Hcheck. destruct Hcheck as [Hround Hquot].
  apply FloatAxioms.Leibniz.eqb_spec in Hround.
  apply FloatAxioms.Leibniz.eqb_spec in Hquot.
  apply risk_eqb_eq in Hrisk. apply risk_eqb_eq in Hshown.
  destruct (analyze_property_run str_lower unicode_digit unicode_space zones_data
              location price property_type z x Hget Hx) as [v Hrun].
  eexists. exists x. split; [exact Hrun|]. cbn [smart_score overall_risk].
  destruct (risk_of_tenths_spec tenths) as [Hlow [Hmod Hhigh]].
  rewrite Hrisk.
  split; [exact Hx|].
  split.
  { unfold weighted_smart_score in Hx.
    rewrite !float_of_int_valid in Hx by lia. cbn [bind] in Hx.
    injection Hx as <-. reflexivity. }
  split; [reflexivity|].
  split.
  { unfold tenths, Qeq, Qdiv, Qmult, Qplus, Qinv, inject_Z. cbn [Qnum Qden]. lia. }
  split; [exact Hround|].
  split; [exact Hquot|].
  split; [exact Hlow|].
  split; [exact Hmod|].
  split; [exact Hhigh|].
  split; [symmetry; exact Hshown|].
  intros Ef Es Ei. rewrite Hround. unfold tenths. rewrite Ef, Es, Ei.
  split; vm_compute; reflexivity.
Qed.

Lemma analyze_property_smart_score_witness :
  exists a : analysis,
    analyze_property ascii_lower ascii_digit ascii_space sample_zones
      (text "ajah") 45000000 (text "3-bedroom") = Return (Found a) /\
    smart_score a = 44.5%float /\ overall_risk a = HIGH.
Proof.
  destruct (analyze_property_smart_score ascii_lower ascii_digit ascii_space
              sample_zones (text "ajah") 45000000 (text "3-bedroom") ajah)
    as [a [x [Hrun [_ [_ [_ [_ [_ [_ [_ [_ [_ [_ Hexample]]]]]]]]]]]]].
  - reflexivity.
  - simpl. lia.
  - simpl. lia.
  - simpl. lia.
  - exists a. split; [exact Hrun|]. apply Hexample; reflexivity.
Defined.

(** ** Great-circle distances *)

Section Distances.

Local Open Scope R_scope.


Lemma round_half_even_R_nonneg (x : R) : 0 <= x -> (0 <= round_half_even_R x)%Z.
Proof.
  intros Hx. unfold round_half_even_R.
  destruct (base_Int_part x) as [Hk1 Hk2].
  assert (Hk : (0 <= Int_part x)%Z).
  { assert (-1 < Int_part x)%Z by (apply lt_IZR; lra). lia. }
  destruct (Rlt_dec (frac_part x) (1 / 2)); [exact Hk|].
  destruct (Rlt_dec (1 / 2) (frac_part x)); [lia|].
  destruct (Z.even (Int_part x)); lia.
Qed.


Lemma round2_nonneg (x : R) : 0 <= x -> 0 <= round2 x.
Proof.
  intros Hx. unfold round2.
  assert (H : (0 <= round_half_even_R (x * 100))%Z)
    by (apply round_half_even_R_nonneg; lra).
  apply IZR_le in H. lra.
Qed.

Lemma math_sqrt_nonneg (x : R) : 0 <= x -> math_sqrt x = Return (R_sqrt.sqrt x).
Proof.
  intros Hx. unfold math_sqrt. destruct (Rlt_dec x 0); [lra | reflexivity].
Qed.

Lemma math_atan2_nonneg (y x : R) : 0 <= y -> 0 <= x -> 0 <= math_atan2 y x.
Proof.
  intros Hy Hx. unfold math_atan2.
  destruct (Rlt_dec 0 x) as [Hpos|Hnpos].
  - assert (H : 0 <= y / x) by (apply Rle_mult_inv_pos; lra).
    destruct H as [H|H].
    + left. rewrite <- atan_0. apply atan_increasing. exact H.
    + rewrite <- H, atan_0. lra.
  - destruct (Rlt_dec x 0); [lra|].
    destruct (Rlt_dec 0 y).
    + pose proof PI_RGT_0. lra.
    + destruct (Rlt_dec y 0); lra.
Qed.

Lemma calculate_distance_unfold (coord1 coord2 : point) :
  _calculate_distance coord1 coord2 =
  (sqrt_a <- math_sqrt (haversine_a coord1 coord2) ;;
   sqrt_1a <- math_sqrt (1 - haversine_a coord1 coord2) ;;
   Return (round2 (6371 * (2 * math_atan2 sqrt_a sqrt_1a)))).
Proof. destruct coord1, coord2. reflexivity. Qed.

Lemma calculate_distance_value (coord1 coord2 : point) :
  0 <= haversine_a coord1 coord2 <= 1 ->
  _calculate_distance coord1 coord2 =
  Return (round2 (6371 * (2 * math_atan2 (R_sqrt.sqrt (haversine_a coord1 coord2))
                                 (R_sqrt.sqrt (1 - haversine_a coord1 coord2))))).
Proof.
  intros [H0 H1]. rewrite calculate_distance_unfold.
  rewrite (math_sqrt_nonneg _ H0). simpl.
  rewrite math_sqrt_nonneg by lra. reflexivity.
Qed.

Lemma valid_point_radians (p : point) :
  valid_point p -> - (PI / 2) <= radians (Q2R (fst p)) <= PI / 2.
Proof.
  intros [Hlo Hhi]. apply Qle_Rle in Hlo, Hhi.
  assert (E1 : Q2R (- (90)) = -90) by (unfold Q2R; simpl; lra).
  assert (E2 : Q2R 90 = 90) by (unfold Q2R; simpl; lra).
  rewrite E1 in Hlo. rewrite E2 in Hhi.
  unfold radians. pose proof PI_RGT_0. split; nra.
Qed.

Lemma haversine_a_range (coord1 coord2 : point) :
  valid_point coord1 -> valid_point coord2 -> 0 <= haversine_a coord1 coord2 <= 1.
Proof.
  intros H1 H2. apply valid_point_radians in H1, H2.
  unfold haversine_a.
  set (p1 := radians (Q2R (fst coord1))) in *.
  set (p2 := radians (Q2R (fst coord2))) in *.
  set (v := (radians (Q2R (snd coord2)) - radians (Q2R (snd coord1))) / 2).
  set (u := (p2 - p1) / 2).
  assert (Hc1 : 0 <= cos p1) by (apply cos_ge_0; lra).
  assert (Hc2 : 0 <= cos p2) by (apply cos_ge_0; lra).
  assert (Hv : sin v ^ 2 <= 1).
  { pose proof (sin2_cos2 v) as E. unfold Rsqr in E. nra. }
  assert (Hu : cos p1 * cos p2 + sin u ^ 2 <= 1).
  { pose proof (cos_minus p2 p1) as Em. pose proof (cos_plus p2 p1) as Ep.
    pose proof (cos_2a_sin u) as E2.
    replace (2 * u) with (p2 - p1) in E2 by (unfold u; lra).
    pose proof (COS_bound (p2 + p1)) as [_ Hb]. nra. }
  assert (Hp : 0 <= cos p1 * cos p2) by nra.
  split; [nra|].
  assert (cos p1 * cos p2 * sin v ^ 2 <= cos p1 * cos p2) by nra.
  lra.
Qed.

(** On the globe the distance is computed without an exception, and is not
    negative. *)
Lemma calculate_distance_total (coord1 coord2 : point) :
  valid_point coord1 -> valid_point coord2 ->
  exists d, _calculate_distance coord1 coord2 = Return d /\ 0 <= d.
Proof.
  intros H1 H2. pose proof (haversine_a_range coord1 coord2 H1 H2) as Ha.
  eexists. split; [apply calculate_distance_value; exact Ha|].
  apply round2_nonneg.
  assert (0 <= math_atan2 (R_sqrt.sqrt (haversine_a coord1 coord2))
                          (R_sqrt.sqrt (1 - haversine_a coord1 coord2)))
    by (apply math_atan2_nonneg; apply sqrt_pos).
  lra.
Qed.


End Distances.

(** ** The corridor loop *)

Lemma sort_by_distance_In (p : corridor_property) (l : list corridor_property) :
  In p (sort_by_distance l) <-> In p l.
Proof.
  assert (Hins : forall q m, In p (insert_by_distance q m) <-> p = q \/ In p m).
  { intros q m. induction m as [|r m IH]; simpl.
    - intuition.
    - destruct (Rlt_dec (distance_from_origin_km r) (distance_from_origin_km q));
        simpl; rewrite ?IH; intuition. }
  induction l as [|q l IH]; simpl.
  - tauto.
  - rewrite Hins, IH. intuition.
Qed.

Lemma sort_by_distance_length (l : list corridor_property) :
  length (sort_by_distance l) = length l.
Proof.
  assert (Hins : forall q m, length (insert_by_distance q m) = S (length m)).
  { intros q m. induction m as [|r m IH]; simpl.
    - reflexivity.
    - destruct (Rlt_dec (distance_from_origin_km r) (distance_from_origin_km q));
        simpl; rewrite ?IH; reflexivity. }
  induction l as [|q l IH]; simpl.
  - reflexivity.
  - rewrite Hins, IH. reflexivity.
Qed.

Lemma is_along_route_value (origin destination candidate : point) (w : Q)
    (d1 d2 d3 : R) :
  _calculate_distance origin candidate = Return d1 ->
  _calculate_distance candidate destination = Return d2 ->
  _calculate_distance origin destination = Return d3 ->
  _is_along_route origin destination candidate w =
  Return (if Rle_dec (Rabs (d1 + d2 - d3)) (Q2R w) then true else false).
Proof.
  intros H1 H2 H3. unfold _is_along_route. rewrite H1, H2, H3. reflexivity.
Qed.

Lemma is_along_route_total (origin destination candidate : point) (w : Q) :
  valid_point origin -> valid_point destination -> valid_point candidate ->
  exists b, _is_along_route origin destination candidate w = Return b.
Proof.
  intros Ho Hd Hc.
  destruct (calculate_distance_total origin candidate Ho Hc) as [d1 [H1 _]].
  destruct (calculate_distance_total candidate destination Hc Hd) as [d2 [H2 _]].
  destruct (calculate_distance_total origin destination Ho Hd) as [d3 [H3 _]].
  eexists. apply (is_along_route_value _ _ _ _ d1 d2 d3); assumption.
Qed.

Section CorridorLoop.

Variables (origin_coords dest_coords : point) (corridor_width_km : Q).

Lemma corridor_loop_cons (max_price_per_sqm : option Z)
    (min_security_score max_flood_risk : Z) (name : str) (zone_data : zone)
    (rest : zones_t) :
  corridor_loop origin_coords dest_coords corridor_width_km max_price_per_sqm
    min_security_score max_flood_risk ((name, zone_data) :: rest) =
  (along <- _is_along_route origin_coords dest_coords (zone_point zone_data)
              corridor_width_km ;;
   if along && passes_filters max_price_per_sqm min_security_score max_flood_risk zone_data
   then
     from_origin <- _calculate_distance origin_coords (zone_point zone_data) ;;
     smart <- _calculate_smart_score zone_data ;;
     others <- corridor_loop origin_coords dest_coords corridor_width_km
                 max_price_per_sqm min_security_score max_flood_risk rest ;;
     Return (corridor_entry name zone_data from_origin smart :: others)
   else corridor_loop origin_coords dest_coords corridor_width_km
          max_price_per_sqm min_security_score max_flood_risk rest).
Proof.
  cbn [corridor_loop]. unfold zone_point, passes_filters.
  destruct (_is_along_route origin_coords dest_coords
              (lat (coordinates zone_data), lng (coordinates zone_data))
              corridor_width_km) as [[|]|e]; cbn [bind andb]; try reflexivity.
  destruct (over_price_ceiling max_price_per_sqm
              (avg_price_per_sqm (market_data zone_data))); cbn [negb andb];
    [reflexivity|].
  destruct (security_score (security zone_data) <? min_security_score)%Z;
    cbn [negb andb]; [reflexivity|].
  destruct (flood_score (flood_risk zone_data) >? max_flood_risk)%Z;
    cbn [negb andb]; reflexivity.
Qed.

(** On a valid repository the loop ends without an exception. *)
Lemma corridor_loop_total (max_price_per_sqm : option Z)
    (min_security_score max_flood_risk : Z) (zs : zones_t) :
  valid_point origin_coords -> valid_point dest_coords -> valid_zones zs ->
  exists l, corridor_loop origin_coords dest_coords corridor_width_km
              max_price_per_sqm min_security_score max_flood_risk zs = Return l.
Proof.
  intros Ho Hd Hzs. induction Hzs as [|[name z] rest Hz Hrest IH].
  - exists []. reflexivity.
  - destruct IH as [l Hl]. rewrite corridor_loop_cons.
    destruct Hz as [Hp [Hf [Hs Hi]]]. simpl in Hp, Hf, Hs, Hi.
    destruct (is_along_route_total origin_coords dest_coords (zone_point z)
                corridor_width_km Ho Hd Hp) as [b Hb].
    rewrite Hb. cbn [bind].
    destruct (b && passes_filters max_price_per_sqm min_security_score max_flood_risk z).
    + destruct (calculate_distance_total origin_coords (zone_point z) Ho Hp)
        as [d [Hdist _]].
      destruct (route_smart_score_valid z Hf Hs Hi) as [r [Hr _]].
      rewrite Hdist, Hr, Hl. cbn [bind]. eexists. reflexivity.
    + exists l. exact Hl.
Qed.

(** What the loop returns: exactly the zones along the route that pass the
    three filters, each with its distance from the origin and its smart
    score. *)
Lemma corridor_loop_In (max_price_per_sqm : option Z)
    (min_security_score max_flood_risk : Z) (zs : zones_t)
    (l : list corridor_property) (p : corridor_property) :
  corridor_loop origin_coords dest_coords corridor_width_km max_price_per_sqm
    min_security_score max_flood_risk zs = Return l ->
  (In p l <->
   exists name zone_data from_origin smart,
     In (name, zone_data) zs /\
     _is_along_route origin_coords dest_coords (zone_point zone_data)
       corridor_width_km = Return true /\
     passes_filters max_price_per_sqm min_security_score max_flood_risk zone_data = true /\
     _calculate_distance origin_coords (zone_point zone_data) = Return from_origin /\
     _calculate_smart_score zone_data = Return smart /\
     p = corridor_entry name zone_data from_origin smart).
Proof.
  revert l. induction zs as [|[name z] rest IH]; intros l Hrun.
  - simpl in Hrun. injection Hrun as <-. split; [intros []|].
    intros [? [? [? [? [[] _]]]]].
  - rewrite corridor_loop_cons in Hrun.
    apply bind_Return in Hrun. destruct Hrun as [b [Hb Hrun]].
    destruct (b && passes_filters max_price_per_sqm min_security_score
                     max_flood_risk z) eqn:Hkeep.
    + apply andb_true_iff in Hkeep. destruct Hkeep as [-> Hpass].
      apply bind_Return in Hrun. destruct Hrun as [d [Hd Hrun]].
      apply bind_Return in Hrun. destruct Hrun as [r [Hr Hrun]].
      apply bind_Return in Hrun. destruct Hrun as [others [Ho Hrun]].
      injection Hrun as <-. specialize (IH others Ho).
      split.
      * intros [Hp|Hp].
        -- exists name, z, d, r. repeat split; try assumption.
           ++ left. reflexivity.
           ++ symmetry. exact Hp.
        -- apply IH in Hp. destruct Hp as [n [z' [d' [r' [Hin Hp]]]]].
           exists n, z', d', r'. split; [right; exact Hin | exact Hp].
      * intros [n [z' [d' [r' [[Hin|Hin] [Ha [Hf [Hd' [Hr' Hp]]]]]]]]].
        -- injection Hin as <- <-. left.
           rewrite Hd in Hd'. rewrite Hr in Hr'.
           injection Hd' as <-. injection Hr' as <-. symmetry. exact Hp.
        -- right. apply IH. exists n, z', d', r'. repeat split; assumption.
    + specialize (IH l Hrun). rewrite IH. split.
      * intros [n [z' [d' [r' [Hin Hp]]]]].
        exists n, z', d', r'. split; [right; exact Hin | exact Hp].
      * intros [n [z' [d' [r' [[Hin|Hin] [Ha [Hf Hp]]]]]]].
        -- injection Hin as <- <-. rewrite Ha in Hb. injection Hb as <-.
           rewrite Hf in Hkeep. discriminate Hkeep.
        -- exists n, z', d', r'. repeat split; try assumption; apply Hp.
Qed.

(** Raising the security floor removes matches and changes nothing else. *)
Lemma corridor_loop_min_security (max_price_per_sqm : option Z)
    (s1 s2 max_flood_risk : Z) (zs : zones_t) (l1 : list corridor_property) :
  (s1 <= s2)%Z ->
  corridor_loop origin_coords dest_coords corridor_width_km max_price_per_sqm
    s1 max_flood_risk zs = Return l1 ->
  corridor_loop origin_coords dest_coords corridor_width_km max_price_per_sqm
    s2 max_flood_risk zs =
  Return (filter (fun p => negb (cp_security_score p <? s2)%Z) l1).
Proof.
  intros Hs. revert l1. induction zs as [|[name z] rest IH]; intros l1 Hrun.
  - simpl in Hrun. injection Hrun as <-. reflexivity.
  - rewrite corridor_loop_cons in Hrun. rewrite corridor_loop_cons.
    apply bind_Return in Hrun. destruct Hrun as [b [Hb Hrun]].
    rewrite Hb. cbn [bind].
    unfold passes_filters in *.
    destruct (negb (over_price_ceiling max_price_per_sqm
                      (avg_price_per_sqm (market_data z)))) eqn:Hprice;
      [|rewrite !andb_false_r in *; cbn [andb] in *; apply IH; exact Hrun].
    destruct (negb (flood_score (flood_risk z) >? max_flood_risk)%Z) eqn:Hflood;
      [|rewrite !andb_false_r in *; apply IH; exact Hrun].
    destruct b; [|cbn [andb] in *; apply IH; exact Hrun].
    cbn [andb] in *. rewrite !andb_true_r in *.
    destruct (security_score (security z) <? s1)%Z eqn:H1.
    + cbn [negb] in Hrun.
      assert (H2 : (security_score (security z) <? s2)%Z = true)
        by (apply Z.ltb_lt; apply Z.ltb_lt in H1; lia).
      rewrite H2. cbn [negb]. apply IH. exact Hrun.
    + cbn [negb] in Hrun.
      apply bind_Return in Hrun. destruct Hrun as [d [Hd Hrun]].
      apply bind_Return in Hrun. destruct Hrun as [r [Hr Hrun]].
      apply bind_Return in Hrun. destruct Hrun as [others [Ho Hrun]].
      injection Hrun as <-. specialize (IH others Ho).
      cbn [filter corridor_entry cp_security_score].
      destruct (security_score (security z) <? s2)%Z; cbn [negb].
      * exact IH.
      * rewrite Hd, Hr, IH. reflexivity.
Qed.

(** A ceiling of 0 is no ceiling. *)
Lemma corridor_loop_zero_ceiling (min_security_score max_flood_risk : Z) (zs : zones_t) :
  corridor_loop origin_coords dest_coords corridor_width_km (Some 0%Z)
    min_security_score max_flood_risk zs =
  corridor_loop origin_coords dest_coords corridor_width_km None
    min_security_score max_flood_risk zs.
Proof.
  induction zs as [|[name z] rest IH].
  - reflexivity.
  - rewrite !corridor_loop_cons, IH. reflexivity.
Qed.

End CorridorLoop.

Section Equator.

Local Open Scope R_scope.



End Equator.

(** ** The corridor test *)

Section CorridorTest.

Local Open Scope R_scope.







End CorridorTest.

(** ** The corridor search *)

Lemma str_eqb_eq (a b : str) : str_eqb a b = true -> a = b.
Proof.
  unfold str_eqb. destruct (list_eq_dec N.eq_dec a b); [tauto | discriminate].
Qed.

Lemma dict_get_In (zs : zones_t) (name : str) (z : zone) :
  dict_get zs name = Some z -> In (name, z) zs.
Proof.
  induction zs as [|[k z'] rest IH]; simpl; [discriminate|].
  destruct (str_eqb k name) eqn:E.
  - intros H. injection H as <-. apply str_eqb_eq in E. subst k. left. reflexivity.
  - intros H. right. apply IH. exact H.
Qed.



Section Search.

Variable zones : zones_t.
Variable gmaps_geocode : str -> option point.
Variable gmaps_distance_matrix : point -> point -> matrix_reply.
Variables origin destination : str.
Variables origin_coords dest_coords : point.
Variables distance_km duration_minutes : float.

Hypothesis origin_found : _get_coordinates zones gmaps_geocode origin = Some origin_coords.
Hypothesis dest_found : _get_coordinates zones gmaps_geocode destination = Some dest_coords.
Hypothesis route_found :
  _get_route_details gmaps_distance_matrix origin_coords dest_coords
  = RouteOK distance_km duration_minutes.

(** With both endpoints located and a route between them, the search is the
    loop over the zones, sorted. *)
Lemma search_route_corridor_run (w : Q) (max_price_per_sqm : option Z)
    (min_security_score max_flood_risk : Z) :
  search_route_corridor zones gmaps_geocode gmaps_distance_matrix origin destination
    w max_price_per_sqm min_security_score max_flood_risk =
  (corridor_properties <-
     corridor_loop origin_coords dest_coords w max_price_per_sqm
       min_security_score max_flood_risk zones ;;
   Return (SearchOK {|
     route_origin := origin;
     route_destination := destination;
     route_distance_km := distance_km;
     route_duration_minutes := duration_minutes;
     param_corridor_width_km := w;
     param_max_price_per_sqm := max_price_per_sqm;
     param_min_security_score := min_security_score;
     param_max_flood_risk := max_flood_risk;
     properties_found := length (sort_by_distance corridor_properties);
     properties := sort_by_distance corridor_properties |})).
Proof.
  unfold search_route_corridor. rewrite origin_found, dest_found, route_found.
  reflexivity.
Qed.

(** On a valid repository the search returns a report, and a zone along the
    route that passes the filters is one of its matches. *)
Lemma search_route_corridor_lists (w : Q) (max_price_per_sqm : option Z)
    (min_security_score max_flood_risk : Z) :
  valid_zones zones -> valid_point origin_coords -> valid_point dest_coords ->
  exists report,
    search_route_corridor zones gmaps_geocode gmaps_distance_matrix origin destination
      w max_price_per_sqm min_security_score max_flood_risk = Return (SearchOK report) /\
    forall name z,
      In (name, z) zones ->
      _is_along_route origin_coords dest_coords (zone_point z) w = Return true ->
      passes_filters max_price_per_sqm min_security_score max_flood_risk z = true ->
      exists p, In p (properties report) /\ zone_name p = name /\
                _calculate_distance origin_coords (zone_point z)
                = Return (distance_from_origin_km p).
Proof.
  intros Hzs Ho Hd.
  destruct (corridor_loop_total origin_coords dest_coords w max_price_per_sqm
              min_security_score max_flood_risk zones Ho Hd Hzs) as [l Hl].
  rewrite search_route_corridor_run, Hl. cbn [bind].
  eexists. split; [reflexivity|]. cbn [properties].
  intros name z Hin Halong Hpass.
  unfold valid_zones in Hzs. rewrite Forall_forall in Hzs.
  destruct (Hzs (name, z) Hin) as [Hp [Hf [Hs Hi]]]. cbn [snd] in Hp, Hf, Hs, Hi.
  destruct (calculate_distance_total origin_coords (zone_point z) Ho Hp) as [d [Hdist _]].
  destruct (route_smart_score_valid z Hf Hs Hi) as [r [Hr _]].
  exists (corridor_entry name z d r). split; [|split; [reflexivity | exact Hdist]].
  apply sort_by_distance_In.
  apply (corridor_loop_In _ _ _ _ _ _ _ _ _ Hl).
  exists name, z, d, r. repeat split; assumption.
Qed.

End Search.


Lemma sample_zones_valid : valid_zones sample_zones.
Proof.
  repeat constructor; unfold Qle; simpl; lia.
Qed.

(** On the sample, a search from Ajah to Lekki Phase 1 returns a report
    that lists every zone along the route that passes the filters. *)
Lemma sample_search_returns (w : Q) (max_price_per_sqm : option Z)
    (min_security_score max_flood_risk : Z) :
  exists report,
    search_route_corridor sample_zones no_geocoder sample_matrix
      (text "Ajah") (text "Lekki Phase 1") w max_price_per_sqm
      min_security_score max_flood_risk = Return (SearchOK report) /\
    forall name z,
      In (name, z) sample_zones ->
      _is_along_route (zone_point ajah) (zone_point lekki_phase_1) (zone_point z) w
      = Return true ->
      passes_filters max_price_per_sqm min_security_score max_flood_risk z = true ->
      In name (map zone_name (properties report)).
Proof.
  assert (Ho : valid_point (zone_point ajah)) by (unfold valid_point, Qle; simpl; lia).
  assert (Hd : valid_point (zone_point lekki_phase_1))
    by (unfold valid_point, Qle; simpl; lia).
  destruct (search_route_corridor_lists sample_zones no_geocoder sample_matrix
              (text "Ajah") (text "Lekki Phase 1")
              (zone_point ajah) (zone_point lekki_phase_1)
              (Binary64.nearest_quotient 142 10) 26%float
              eq_refl eq_refl ltac:(vm_compute; reflexivity)
              w max_price_per_sqm min_security_score max_flood_risk
              sample_zones_valid Ho Hd) as [report [Hrun Hlist]].
  exists report. split; [exact Hrun|].
  intros name z Hin Halong Hpass.
  destruct (Hlist name z Hin Halong Hpass) as [p [Hp [Hname _]]].
  rewrite <- Hname. apply in_map. exact Hp.
Qed.




(** C7. With the origin, the destination, the corridor width and the other
    two filters fixed, raising the security floor from [s1] to [s2] can only
    remove matches: when the search with [s1] returns a report, so does the
    search with [s2]; its matches are exactly those of the first report
    whose security score is at least [s2], so they are a subset, and their
    number is not larger.  When the first search ends on an error, so does
    the second, on the same one. *)
Theorem min_security_monotone
    (zones : zones_t) (gmaps_geocode : str -> option point)
    (gmaps_distance_matrix : point -> point -> matrix_reply)
    (origin destination : str) (w : Q) (max_price_per_sqm : option Z)
    (max_flood_risk s1 s2 : Z) :
  (s1 <= s2)%Z ->
  (forall r1,
     search_route_corridor zones gmaps_geocode gmaps_distance_matrix origin destination
       w max_price_per_sqm s1 max_flood_risk = Return (SearchOK r1) ->
     exists r2,
       search_route_corridor zones gmaps_geocode gmaps_distance_matrix origin destination
         w max_price_per_sqm s2 max_flood_risk = Return (SearchOK r2) /\
       (forall p, In p (properties r2) <->
                  In p (properties r1) /\ (s2 <= cp_security_score p)%Z) /\
       incl (properties r2) (properties r1) /\
       (properties_found r2 <= properties_found r1)%nat) /\
  (forall info,
     search_route_corridor zones gmaps_geocode gmaps_distance_matrix origin destination
       w max_price_per_sqm s1 max_flood_risk = Return (SearchFailed info) ->
     search_route_corridor zones gmaps_geocode gmaps_distance_matrix origin destination
       w max_price_per_sqm s2 max_flood_risk = Return (SearchFailed info)).
Proof.
  intros Hs.
  destruct (_get_coordinates zones gmaps_geocode origin) as [o|] eqn:Ho;
    [|split; [intros r1 | intros info]; unfold search_route_corridor;
      rewrite Ho; [discriminate | tauto]].
  destruct (_get_coordinates zones gmaps_geocode destination) as [d|] eqn:Hd;
    [|split; [intros r1 | intros info]; unfold search_route_corridor;
      rewrite Ho, Hd; [discriminate | tauto]].
  destruct (_get_route_details gmaps_distance_matrix o d) as [km mins| |msg] eqn:Hr;
    try (split; [intros r1 | intros info]; unfold search_route_corridor;
         rewrite Ho, Hd, Hr; [discriminate | tauto]).
  rewrite !(search_route_corridor_run zones gmaps_geocode gmaps_distance_matrix
              origin destination o d km mins Ho Hd Hr).
  split.
  - intros r1 Hrun. apply bind_Return in Hrun. destruct Hrun as [l1 [Hl1 Hrun]].
    injection Hrun as <-.
    rewrite (corridor_loop_min_security o d w max_price_per_sqm s1 s2
               max_flood_risk zones l1 Hs Hl1).
    cbn [bind]. eexists. split; [reflexivity|]. cbn [properties properties_found].
    assert (Hiff : forall p,
              In p (sort_by_distance
                      (filter (fun p => negb (cp_security_score p <? s2)%Z) l1)) <->
              In p (sort_by_distance l1) /\ (s2 <= cp_security_score p)%Z).
    { intros p. rewrite !sort_by_distance_In, filter_In, negb_true_iff, Z.ltb_ge.
      reflexivity. }
    split; [exact Hiff|]. split.
    + intros p Hp. apply Hiff in Hp. tauto.
    + rewrite !sort_by_distance_length. apply filter_length_le.
  - intros info Hrun. apply bind_Return in Hrun. destruct Hrun as [l1 [_ Hrun]].
    discriminate Hrun.
Qed.

Lemma min_security_monotone_witness :
  exists r1 r2,
    search_route_corridor sample_zones no_geocoder sample_matrix
      (text "Ajah") (text "Lekki Phase 1") 5 None 50 80 = Return (SearchOK r1) /\
    search_route_corridor sample_zones no_geocoder sample_matrix
      (text "Ajah") (text "Lekki Phase 1") 5 None 60 80 = Return (SearchOK r2) /\
    incl (properties r2) (properties r1) /\
    (properties_found r2 <= properties_found r1)%nat.
Proof.
  destruct (sample_search_returns 5 None 50%Z 80%Z) as [r1 [Hrun _]].
  destruct (min_security_monotone sample_zones no_geocoder sample_matrix
              (text "Ajah") (text "Lekki Phase 1") 5 None 80%Z 50%Z 60%Z
              ltac:(lia)) as [Hok _].
  destruct (Hok r1 Hrun) as [r2 [Hrun2 [_ [Hincl Hcount]]]].
  exists r1, r2. repeat split; assumption.
Defined.

(** ** The price ceiling *)

Lemma sqm_estimate_cases (bedrooms : Z) :
  In (sqm_estimate bedrooms) [80; 120; 160; 200]%Z.
Proof.
  unfold sqm_estimate.
  repeat match goal with
         | |- context [match ?x with _ => _ end] => destruct x
         end; simpl; tauto.
Qed.

Lemma small_budgets_checked :
  forallb (fun estimated_sqm => forallb (budget_check estimated_sqm) small_budgets)
    [80; 120; 160; 200]%Z = true.
Proof. vm_compute. reflexivity. Qed.

Lemma small_budget_ceiling (bedrooms budget : Z) :
  (- sqm_estimate bedrooms < budget < sqm_estimate bedrooms)%Z ->
  (max_price_per_sqm <- Binary64.int_true_div budget (sqm_estimate bedrooms) ;;
   int_of_float max_price_per_sqm) = Return 0%Z.
Proof.
  intros Hb. pose proof (sqm_estimate_cases bedrooms) as Hest.
  pose proof small_budgets_checked as Hall. rewrite forallb_forall in Hall.
  specialize (Hall _ Hest). rewrite forallb_forall in Hall.
  assert (Hin : In budget small_budgets).
  { unfold small_budgets.
    replace budget with (Z.of_nat (Z.to_nat (budget + 200)) - 200)%Z
      by (simpl in Hest; lia).
    apply (in_map (fun n => (Z.of_nat n - 200)%Z)), in_seq. simpl in Hest. lia. }
  specialize (Hall budget Hin). unfold budget_check in Hall.
  replace (Z.abs budget <? sqm_estimate bedrooms)%Z with true in Hall
    by (symmetry; apply Z.ltb_lt; lia).
  destruct (max_price_per_sqm <- Binary64.int_true_div budget (sqm_estimate bedrooms) ;;
            int_of_float max_price_per_sqm) as [[| |]|]; try discriminate Hall.
  reflexivity.
Qed.

(** C9. A price ceiling of 0 disables the price filter: no candidate is over
    it, and the search with the ceiling 0 returns what the search without a
    ceiling returns (but for the ceiling echoed in the report).  This is the
    ceiling [search_by_budget_along_route] passes on when the budget is
    smaller, in absolute value, than the area implied by the bedrooms, the
    truncated quotient being 0. *)
Theorem zero_ceiling_disables_price_filter :
  (forall price : Q, over_price_ceiling (Some 0%Z) price = false) /\
  (forall (zones : zones_t) (gmaps_geocode : str -> option point)
          (gmaps_distance_matrix : point -> point -> matrix_reply)
          (origin destination : str) (w : Q) (min_security_score max_flood_risk : Z),
     search_route_corridor zones gmaps_geocode gmaps_distance_matrix origin destination
       w (Some 0%Z) min_security_score max_flood_risk =
     echo_ceiling (Some 0%Z)
       (search_route_corridor zones gmaps_geocode gmaps_distance_matrix origin
          destination w None min_security_score max_flood_risk)) /\
  (forall (zones : zones_t) (gmaps_geocode : str -> option point)
          (gmaps_distance_matrix : point -> point -> matrix_reply)
          (origin destination : str) (budget bedrooms : Z) (w : Q),
     (- sqm_estimate bedrooms < budget < sqm_estimate bedrooms)%Z ->
     search_by_budget_along_route zones gmaps_geocode gmaps_distance_matrix
       origin destination budget bedrooms w =
     search_route_corridor zones gmaps_geocode gmaps_distance_matrix origin destination
       w (Some 0%Z) 50 70).
Proof.
  split; [reflexivity|]. split.
  - intros zones geocode matrix origin destination w mn mx.
    unfold search_route_corridor.
    destruct (_get_coordinates zones geocode origin) as [o|]; [|reflexivity].
    destruct (_get_coordinates zones geocode destination) as [d|]; [|reflexivity].
    destruct (_get_route_details matrix o d) as [km mins| |msg]; try reflexivity.
    rewrite corridor_loop_zero_ceiling.
    destruct (corridor_loop o d w None mn mx zones) as [l|e]; reflexivity.
  - intros zones geocode matrix origin destination budget bedrooms w Hb.
    unfold search_by_budget_along_route.
    pose proof (small_budget_ceiling bedrooms budget Hb) as Hc.
    destruct (Binary64.int_true_div budget (sqm_estimate bedrooms)) as [x|e];
      cbn [bind] in *; [|discriminate Hc].
    rewrite Hc. reflexivity.
Qed.

Lemma zero_ceiling_disables_price_filter_witness :
  search_by_budget_along_route sample_zones no_geocoder sample_matrix
    (text "Ajah") (text "Lekki Phase 1") 100 3 5 =
  search_route_corridor sample_zones no_geocoder sample_matrix
    (text "Ajah") (text "Lekki Phase 1") 5 (Some 0%Z) 50 70.
Proof.
  apply (proj2 (proj2 zero_ceiling_disables_price_filter)). simpl. lia.
Defined.

(** ** The route smart score *)

(** C8, as stated, fails.  For the scores 55, 60 and 75 of Ajah the weighted
    sum is 47.75, and the route smart score is 48. *)
Lemma route_smart_score_not_the_sum :
  _calculate_smart_score ajah = Return 48%Z /\
  (inject_Z 55 * 0.35 + inject_Z 60 * 0.35 + inject_Z (100 - 75) * 0.30 == 47.75)%Q /\
  ~ (inject_Z 48 == 47.75)%Q.
Proof.
  split; [vm_compute; reflexivity|]. split; [reflexivity | discriminate].
Qed.

(** C8, amended.  For every record whose scores are integers of [0, 100],
    the route smart score is the binary64 value of
    [security * 0.35 + infrastructure * 0.35 + (100 - flood) * 0.30] rounded
    to the nearest integer: an integer of [0, 100] within one half of the
    weighted sum.  It is the score every match of the corridor loop carries.
    The weights are not those of [analyze_property]: for the scores of Ajah
    the two scores are 48 and 44.5. *)
Theorem route_smart_score_rounded :
  (forall z : zone,
     let f := flood_score (flood_risk z) in
     let s := security_score (security z) in
     let i := infrastructure_score (infrastructure z) in
     (0 <= f <= 100)%Z -> (0 <= s <= 100)%Z -> (0 <= i <= 100)%Z ->
     exists (x : float) (r : Z),
       x = (Binary64.of_int s * 0.35 + Binary64.of_int i * 0.35
            + Binary64.of_int (100 - f) * 0.30)%float /\
       round_to_int x = Return r /\
       _calculate_smart_score z = Return r /\
       (0 <= r <= 100)%Z /\
       (Qabs (inject_Z r
              - (inject_Z s * 0.35 + inject_Z i * 0.35 + inject_Z (100 - f) * 0.30))
        <= 1 # 2)%Q) /\
  (forall (origin_coords dest_coords : point) (w : Q) (max_price_per_sqm : option Z)
          (min_security_score max_flood_risk : Z) (zs : zones_t)
          (l : list corridor_property) (p : corridor_property),
     corridor_loop origin_coords dest_coords w max_price_per_sqm
       min_security_score max_flood_risk zs = Return l ->
     In p l ->
     exists z, In (zone_name p, z) zs /\
               _calculate_smart_score z = Return (cp_smart_score p)) /\
  (exists x : float,
     weighted_smart_score 75 55 60 = Return x /\
     round_ndigits x 1 = 44.5%float /\
     _calculate_smart_score ajah = Return 48%Z).
Proof.
  split; [|split].
  - intros z f s i Hf Hs Hi.
    destruct (route_smart_score_valid z Hf Hs Hi) as [r [Hr [Hrange Hhalf]]].
    fold f s i in Hhalf.
    unfold _calculate_smart_score in Hr. fold f s i in Hr.
    rewrite !float_of_int_valid in Hr by lia. cbn [bind] in Hr.
    eexists. exists r. split; [reflexivity|]. split; [exact Hr|].
    split.
    + unfold _calculate_smart_score. fold f s i.
      rewrite !float_of_int_valid by lia. cbn [bind]. exact Hr.
    + split; [exact Hrange|].
      apply Qabs_Qle_condition.
      unfold Qle, Qminus, Qplus, Qmult, Qopp, inject_Z. cbn [Qnum Qden].
      split; lia.
  - intros o d w mp mn mx zs l p Hrun Hin.
    apply (corridor_loop_In o d w mp mn mx zs l p Hrun) in Hin.
    destruct Hin as [name [z [dist [smart [Hz [_ [_ [_ [Hsmart ->]]]]]]]]].
    exists z. split; [exact Hz | exact Hsmart].
  - eexists. split; [vm_compute; reflexivity|].
    split; vm_compute; reflexivity.
Qed.

Lemma route_smart_score_rounded_witness :
  exists r : Z,
    _calculate_smart_score lekki_phase_1 = Return r /\ (0 <= r <= 100)%Z.
Proof.
  destruct (proj1 route_smart_score_rounded lekki_phase_1)
    as [x [r [_ [_ [Hr [Hrange _]]]]]].
  - simpl. lia.
  - simpl. lia.
  - simpl. lia.
  - exists r. split; [exact Hr | exact Hrange].
Defined.

(** ** The price verdict *)

Lemma Qlt_bool_iff (x y : Q) : Qlt_bool x y = true <-> (x < y)%Q.
Proof.
  unfold Qlt_bool. rewrite negb_true_iff. split.
  - intros H. apply Qnot_le_lt. intros Hle. apply Qle_bool_iff in Hle. congruence.
  - intros H. destruct (Qle_bool y x) eqn:E; [|reflexivity].
    apply Qle_bool_iff in E. exfalso. apply (Qlt_not_le _ _ H E).
Qed.






(** ** The ROI projection *)

Lemma py_div_nonzero (x y : Q) : ~ (y == 0)%Q -> py_div x y = Return (x / y)%Q.
Proof.
  intros Hy. unfold py_div. destruct (Qeq_bool y 0) eqn:E; [|reflexivity].
  apply Qeq_bool_iff in E. contradiction.
Qed.

Lemma py_div_zero (x y : Q) : (y == 0)%Q -> py_div x y = Raise ZeroDivisionError.
Proof.
  intros Hy. unfold py_div. apply Qeq_bool_iff in Hy. rewrite Hy. reflexivity.
Qed.

Lemma inject_Z_nonzero (n : Z) : n <> 0%Z -> ~ (inject_Z n == 0)%Q.
Proof.
  intros Hn H. unfold Qeq, inject_Z in H. cbn [Qnum Qden] in H. lia.
Qed.

(** The recurring annual costs of a record: the generator, the flood
    insurance, and the optional fees the record has. *)
Lemma annual_costs_sum (hidden : hidden_costs_t) :
  (match estate_service_charge hidden with
   | Some fee =>
       match borehole_maintenance hidden with
       | Some fee' =>
           generator_diesel_monthly hidden * 12 + flood_insurance hidden + fee'
       | None => generator_diesel_monthly hidden * 12 + flood_insurance hidden
       end + fee
   | None =>
       match borehole_maintenance hidden with
       | Some fee' =>
           generator_diesel_monthly hidden * 12 + flood_insurance hidden + fee'
       | None => generator_diesel_monthly hidden * 12 + flood_insurance hidden
       end
   end
   == 12 * generator_diesel_monthly hidden + flood_insurance hidden
      + optional_fee (borehole_maintenance hidden)
      + optional_fee (estate_service_charge hidden))%Q.
Proof.
  destruct (estate_service_charge hidden), (borehole_maintenance hidden);
    unfold optional_fee; ring.
Qed.







(** ** Inputs that are not positive *)






(** * Further properties of the two classes *)

(** ** The resolution of a location name *)

Lemma str_eqb_refl (a : str) : str_eqb a a = true.
Proof.
  unfold str_eqb. destruct (list_eq_dec N.eq_dec a a); [reflexivity | contradiction].
Qed.

Lemma dict_keys_mem (zs : zones_t) (k : str) :
  In k (dict_keys zs) -> dict_mem zs k = true.
Proof.
  unfold dict_mem, dict_keys. induction zs as [|[k' z] rest IH]; simpl.
  - intros [].
  - intros [Hk|Hk].
    + subst k'. rewrite str_eqb_refl. reflexivity.
    + destruct (str_eqb k' k); [reflexivity | apply IH; exact Hk].
Qed.

Lemma dict_mem_keys (zs : zones_t) (k : str) :
  dict_mem zs k = true -> In k (dict_keys zs).
Proof.
  unfold dict_mem. destruct (dict_get zs k) as [z|] eqn:E; [|discriminate].
  intros _. apply dict_get_In in E. unfold dict_keys.
  apply (in_map fst) in E. exact E.
Qed.

(** The two ways [_normalize_location] ends: on a key of the repository, or
    on the name it was given, when that is no key and neither search finds
    one. *)
Lemma normalize_location_cases
    (str_lower : str -> str) (zones_data : zones_t) (location : str) :
  let key := _normalize_location str_lower zones_data location in
  dict_mem zones_data key = true \/
  (key = location /\
   dict_mem zones_data location = false /\
   find (fun k => str_eqb (str_lower k) (str_lower location))
     (dict_keys zones_data) = None /\
   find (fun k => str_contains (str_lower location) (str_lower k))
     (dict_keys zones_data) = None).
Proof.
  intros key. unfold key, _normalize_location.
  destruct (dict_mem zones_data location) eqn:Hm; [left; exact Hm|].
  destruct (find (fun k => str_eqb (str_lower k) (str_lower location))
              (dict_keys zones_data)) as [k|] eqn:F1.
  - left. apply find_some in F1. apply dict_keys_mem. tauto.
  - destruct (find (fun k => str_contains (str_lower location) (str_lower k))
                (dict_keys zones_data)) as [k|] eqn:F2.
    + left. apply find_some in F2. apply dict_keys_mem. tauto.
    + right. repeat split.
Qed.

(** A name that does not resolve to a key is no key itself. *)
Lemma normalize_location_unresolved
    (str_lower : str -> str) (zones_data : zones_t) (location : str) :
  dict_mem zones_data (_normalize_location str_lower zones_data location) = false ->
  _normalize_location str_lower zones_data location = location /\
  ~ In location (dict_keys zones_data).
Proof.
  intros Hnot.
  destruct (normalize_location_cases str_lower zones_data location)
    as [Hk|[Hk [Hm _]]]; [congruence|].
  split; [exact Hk|]. intros Hin. apply dict_keys_mem in Hin. congruence.
Qed.


(** X2. [analyze_property] and [calculate_roi] resolve a location alike: one
    answers with the error dictionary exactly when the other does, whatever
    the price, the property type and the holding period; the dictionary
    then names the location as it was asked and lists every key of the
    repository, and the location asked is not one of them. *)
Theorem not_found_agreement
    (str_lower : str -> str) (unicode_digit : char -> option N)
    (unicode_space : char -> bool) (zones_data : zones_t)
    (location : str) (price price' : Q) (property_type : str) (y : Z) :
  ((exists asked available,
      analyze_property str_lower unicode_digit unicode_space zones_data
        location price property_type = Return (NotFound asked available))
   <->
   (exists asked available,
      calculate_roi str_lower zones_data price' location y
      = Return (NotFound asked available))) /\
  (forall asked available,
     analyze_property str_lower unicode_digit unicode_space zones_data
       location price property_type = Return (NotFound asked available) \/
     calculate_roi str_lower zones_data price' location y
     = Return (NotFound asked available) ->
     asked = location /\
     available = get_available_locations zones_data /\
     ~ In location (dict_keys zones_data) /\
     (forall k, In k available <-> In k (dict_keys zones_data))).
Proof.
  assert (Hsorted : forall l k, In k (sorted_strs l) <-> In k l).
  { assert (Hins : forall x l k, In k (insert_str x l) <-> k = x \/ In k l).
    { intros x l k. induction l as [|a l IH]; simpl; [intuition|].
      destruct (str_ltb a x); simpl; rewrite ?IH; intuition. }
    intros l k. induction l as [|a l IH]; simpl; [tauto|].
    rewrite Hins, IH. intuition. }
  unfold analyze_property, calculate_roi.
  pose proof (normalize_location_unresolved str_lower zones_data location) as Hnone.
  destruct (dict_get zones_data (_normalize_location str_lower zones_data location))
    as [z|] eqn:Hget.
  - assert (Ha : forall asked available,
              (smart_score <- weighted_smart_score (flood_score (flood_risk z))
                                (security_score (security z))
                                (infrastructure_score (infrastructure z)) ;;
               price_verdict <- _evaluate_price unicode_digit unicode_space zones_data
                                  price (avg_price_per_sqm (market_data z))
                                  (_normalize_location str_lower zones_data location) ;;
               Return (Found {|
                 a_location := zone_location z;
                 a_property_type := property_type;
                 a_price_offered := price;
                 smart_score := round_ndigits smart_score 1;
                 overall_risk := risk_of_score smart_score;
                 a_flood_score := flood_score (flood_risk z);
                 a_security_score := security_score (security z);
                 a_infrastructure_score := infrastructure_score (infrastructure z);
                 a_infrastructure_level :=
                   _score_to_level (infrastructure_score (infrastructure z));
                 price_analysis := price_verdict;
                 a_monthly_generator := generator_diesel_monthly (hidden_costs z);
                 total_hidden := _calculate_total_hidden (hidden_costs z);
                 a_local_notes := notes z |}))
              <> Return (NotFound asked available)).
    { intros asked available H.
      apply bind_Return in H. destruct H as [x [_ H]].
      apply bind_Return in H. destruct H as [v [_ H]]. discriminate H. }
    assert (Hr : forall asked available,
              calculate_roi str_lower zones_data price' location y
              <> Return (NotFound asked available)).
    { intros asked available H. unfold calculate_roi in H. rewrite Hget in H.
      apply bind_Return in H. destruct H as [x [_ H]].
      apply bind_Return in H. destruct H as [v [_ H]]. discriminate H. }
    unfold calculate_roi in Hr. rewrite Hget in Hr.
    split.
    + split; intros [asked [available H]]; exfalso;
        [apply (Ha _ _ H) | apply (Hr _ _ H)].
    + intros asked available [H|H]; exfalso; [apply (Ha _ _ H) | apply (Hr _ _ H)].
  - split.
    + split; intros _; eexists; eexists; reflexivity.
    + assert (Hm : dict_mem zones_data
                     (_normalize_location str_lower zones_data location) = false)
        by (unfold dict_mem; rewrite Hget; reflexivity).
      destruct (Hnone Hm) as [Hkey Hnokey].
      intros asked available H.
      assert (E : asked = location /\ available = get_available_locations zones_data)
        by (destruct H as [H|H]; injection H as <- <-; split; reflexivity).
      destruct E as [-> ->]. split; [reflexivity|]. split; [reflexivity|]. split.
      * exact Hnokey.
      * intros k. unfold get_available_locations. apply Hsorted.
Qed.

(** ** The list of available locations *)

Lemma str_ltb_asym (a b : str) : str_ltb a b = true -> str_ltb b a = false.
Proof.
  revert b. induction a as [|x a IH]; intros [|y b]; simpl; try congruence.
  intros H. apply orb_true_iff in H. apply orb_false_iff.
  destruct H as [H|H].
  - apply N.ltb_lt in H. split.
    + apply N.ltb_ge. lia.
    + apply andb_false_iff. left. apply N.eqb_neq. lia.
  - apply andb_true_iff in H. destruct H as [E H]. apply N.eqb_eq in E. subst y.
    split.
    + apply N.ltb_irrefl.
    + rewrite (IH b H). apply andb_false_r.
Qed.

Lemma str_leb_trans (a b c : str) :
  str_ltb b a = false -> str_ltb c b = false -> str_ltb c a = false.
Proof.
  revert b c. induction a as [|x a IH]; intros [|y b] [|z c]; simpl;
    try congruence.
  intros H1 H2.
  apply orb_false_iff in H1. destruct H1 as [L1 E1].
  apply orb_false_iff in H2. destruct H2 as [L2 E2].
  apply N.ltb_ge in L1, L2. apply orb_false_iff. split.
  - apply N.ltb_ge. lia.
  - destruct (z =? x)%N eqn:Ezx; [|reflexivity]. apply N.eqb_eq in Ezx. subst z.
    assert (y = x) by lia. subst y.
    rewrite N.eqb_refl in E1, E2. cbn [andb] in *. apply (IH b c E1 E2).
Qed.

Lemma insert_str_perm (x : str) (l : list str) : Permutation (x :: l) (insert_str x l).
Proof.
  induction l as [|a l IH]; simpl; [apply Permutation_refl|].
  destruct (str_ltb a x); [|apply Permutation_refl].
  apply (perm_trans (perm_swap a x l)). apply perm_skip. exact IH.
Qed.

Lemma insert_str_sorted (x : str) (l : list str) :
  Sorted (fun a b => str_ltb b a = false) l ->
  Sorted (fun a b => str_ltb b a = false) (insert_str x l).
Proof.
  intros Hs. induction Hs as [|a l Hs IH Hd]; simpl.
  - repeat constructor.
  - destruct (str_ltb a x) eqn:E.
    + constructor; [exact IH|].
      destruct l as [|b l]; simpl.
      * constructor. apply str_ltb_asym. exact E.
      * destruct (str_ltb b x); constructor.
        -- inversion Hd. assumption.
        -- apply str_ltb_asym. exact E.
    + constructor; [constructor; assumption|]. constructor. exact E.
Qed.

(** X3. [get_available_locations] returns the keys of the repository, each
    as many times as it is a key, in ascending order of their code
    points. *)
Theorem available_locations_sorted (zones_data : zones_t) :
  Permutation (dict_keys zones_data) (get_available_locations zones_data) /\
  StronglySorted (fun a b => str_ltb b a = false) (get_available_locations zones_data) /\
  length (get_available_locations zones_data) = length zones_data.
Proof.
  unfold get_available_locations, sorted_strs.
  assert (Hp : forall l, Permutation l (fold_right insert_str [] l)).
  { induction l as [|a l IH]; simpl; [constructor|].
    apply (perm_trans (perm_skip a IH)). apply insert_str_perm. }
  split; [apply Hp|]. split.
  - apply Sorted_StronglySorted.
    + intros a b c H1 H2. apply (str_leb_trans a b c H1 H2).
    + induction (dict_keys zones_data) as [|a l IH]; simpl.
      * constructor.
      * apply insert_str_sorted. exact IH.
  - rewrite <- (Permutation_length (Hp (dict_keys zones_data))).
    unfold dict_keys. apply length_map.
Qed.

(** ** The ROI report *)

Lemma calculate_roi_fails (str_lower : str -> str) (zones_data : zones_t)
    (price : Q) (location : str) (y : Z) (z : zone) :
  dict_get zones_data (_normalize_location str_lower zones_data location) = Some z ->
  (price == 0)%Q \/ y = 0%Z ->
  calculate_roi str_lower zones_data price location y = Raise ZeroDivisionError.
Proof.
  intros Hget Hz. unfold calculate_roi. rewrite Hget.
  destruct (Qeq_dec price 0) as [Hp|Hp].
  - rewrite py_div_zero by exact Hp. reflexivity.
  - destruct Hz as [Hz|Hz]; [contradiction|].
    rewrite py_div_nonzero by exact Hp. cbn [bind].
    rewrite py_div_zero by (subst y; reflexivity). reflexivity.
Qed.

(** A report of [calculate_roi], taken apart. *)
Lemma calculate_roi_fields (str_lower : str -> str) (zones_data : zones_t)
    (price : Q) (location : str) (y : Z) (r : roi_report) :
  calculate_roi str_lower zones_data price location y = Return (Found r) ->
  exists z,
    dict_get zones_data (_normalize_location str_lower zones_data location) = Some z /\
    ~ (price == 0)%Q /\ y <> 0%Z /\
    (one_time_costs r == omo_onile (hidden_costs z) + land_survey (hidden_costs z))%Q /\
    (annual_costs r ==
       12 * generator_diesel_monthly (hidden_costs z) + flood_insurance (hidden_costs z)
       + optional_fee (borehole_maintenance (hidden_costs z))
       + optional_fee (estate_service_charge (hidden_costs z)))%Q /\
    (other_annual r == optional_fee (borehole_maintenance (hidden_costs z))
                       + optional_fee (estate_service_charge (hidden_costs z)))%Q /\
    (total_hidden_costs r == one_time_costs r + annual_costs r * inject_Z y)%Q /\
    (gross_return r ==
       price * inject_Z y
       * (rental_yield (market_data z) + appreciation_5yr (market_data z)))%Q /\
    (net_return r == gross_return r - total_hidden_costs r)%Q /\
    (roi_percentage r == net_return r / price * 100)%Q /\
    (annual_roi r == roi_percentage r / inject_Z y)%Q /\
    verdict r = roi_verdict_of (roi_percentage r) /\
    liquidity r = liquidity_of (days_to_sell_avg (market_data z)).
Proof.
  intros Hrun.
  destruct (dict_get zones_data (_normalize_location str_lower zones_data location))
    as [z|] eqn:Hget; [|unfold calculate_roi in Hrun; rewrite Hget in Hrun;
                        discriminate Hrun].
  exists z. split; [reflexivity|].
  assert (Hp : ~ (price == 0)%Q).
  { intros E. rewrite (calculate_roi_fails _ _ _ _ _ z Hget (or_introl E)) in Hrun.
    discriminate Hrun. }
  assert (Hy : y <> 0%Z).
  { intros E. rewrite (calculate_roi_fails _ _ _ _ _ z Hget (or_intror E)) in Hrun.
    discriminate Hrun. }
  split; [exact Hp|]. split; [exact Hy|].
  unfold calculate_roi in Hrun. rewrite Hget in Hrun.
  rewrite py_div_nonzero in Hrun by exact Hp. cbn [bind] in Hrun.
  rewrite py_div_nonzero in Hrun by (apply inject_Z_nonzero; exact Hy).
  cbn [bind] in Hrun. injection Hrun as <-.
  cbn [one_time_costs annual_costs other_annual total_hidden_costs gross_return
       net_return roi_percentage annual_roi verdict liquidity].
  pose proof (annual_costs_sum (hidden_costs z)) as Hac.
  split; [reflexivity|]. split; [exact Hac|].
  split; [rewrite Hac; ring|]. split; [reflexivity|].
  split; [ring|]. repeat split; reflexivity.
Qed.

Lemma Qle_bool_false (x y : Q) : Qle_bool x y = false <-> (y < x)%Q.
Proof.
  split.
  - intros H. apply Qnot_le_lt. intros Hle. apply Qle_bool_iff in Hle. congruence.
  - intros H. destruct (Qle_bool x y) eqn:E; [|reflexivity].
    apply Qle_bool_iff in E. exfalso. apply (Qlt_not_le _ _ H E).
Qed.






(** A report of [analyze_property], taken apart. *)
Lemma analyze_property_fields
    (str_lower : str -> str) (unicode_digit : char -> option N)
    (unicode_space : char -> bool) (zones_data : zones_t)
    (location : str) (price : Q) (property_type : str) (a : analysis) :
  analyze_property str_lower unicode_digit unicode_space zones_data
    location price property_type = Return (Found a) ->
  exists z x,
    dict_get zones_data (_normalize_location str_lower zones_data location) = Some z /\
    weighted_smart_score (flood_score (flood_risk z)) (security_score (security z))
      (infrastructure_score (infrastructure z)) = Return x /\
    smart_score a = round_ndigits x 1 /\
    overall_risk a = risk_of_score x /\
    a_infrastructure_level a = _score_to_level (infrastructure_score (infrastructure z)) /\
    a_monthly_generator a = generator_diesel_monthly (hidden_costs z) /\
    total_hidden a = _calculate_total_hidden (hidden_costs z) /\
    a_price_offered a = price /\
    offered_price (price_analysis a) = price.
Proof.
  intros Hrun. unfold analyze_property in Hrun.
  destruct (dict_get zones_data (_normalize_location str_lower zones_data location))
    as [z|] eqn:Hget; [|discriminate Hrun].
  apply bind_Return in Hrun. destruct Hrun as [x [Hx Hrun]].
  apply bind_Return in Hrun. destruct Hrun as [v [Hv Hrun]].
  injection Hrun as <-. exists z, x.
  split; [reflexivity|]. split; [exact Hx|].
  cbn [smart_score overall_risk a_infrastructure_level a_monthly_generator
       total_hidden a_price_offered price_analysis].
  repeat split.
  unfold _evaluate_price in Hv. rewrite Hget in Hv.
  destruct (search_range unicode_digit unicode_space (price_range (market_data z)))
    as [[lo hi]|]; injection Hv as <-; reflexivity.
Qed.

(** X6. The two operations count the hidden costs differently.  The total
    [analyze_property] reports is omo-onile plus land survey plus one flood
    insurance premium, whatever the price; [calculate_roi] takes omo-onile
    and land survey as one-time costs and charges the flood insurance every
    year, with the generator and the optional fees: its total exceeds the
    total of the analysis by the recurring costs of the holding period less
    one premium. *)
Theorem hidden_costs_two_views
    (str_lower : str -> str) (unicode_digit : char -> option N)
    (unicode_space : char -> bool) (zones_data : zones_t)
    (location : str) (price price' : Q) (property_type : str) (y : Z)
    (a : analysis) (r : roi_report) :
  analyze_property str_lower unicode_digit unicode_space zones_data
    location price property_type = Return (Found a) ->
  calculate_roi str_lower zones_data price' location y = Return (Found r) ->
  exists z,
    dict_get zones_data (_normalize_location str_lower zones_data location) = Some z /\
    (total_hidden a == one_time_costs r + flood_insurance (hidden_costs z))%Q /\
    (annual_costs r == 12 * a_monthly_generator a + flood_insurance (hidden_costs z)
                       + other_annual r)%Q /\
    (total_hidden_costs r ==
       total_hidden a - flood_insurance (hidden_costs z) + annual_costs r * inject_Z y)%Q.
Proof.
  intros Ha Hr.
  destruct (analyze_property_fields _ _ _ _ _ _ _ _ Ha)
    as [z [x [Hget [_ [_ [_ [_ [Hgen [Hth _]]]]]]]]].
  destruct (calculate_roi_fields _ _ _ _ _ _ Hr)
    as [z' [Hget' [_ [_ [Hot [Hac [Hoa [Hthc _]]]]]]]].
  rewrite Hget in Hget'. injection Hget' as <-.
  exists z. split; [exact Hget|].
  rewrite Hth, Hgen. unfold _calculate_total_hidden.
  split; [rewrite Hot; reflexivity|].
  split; [rewrite Hac, Hoa; ring|].
  rewrite Hthc, Hot. ring.
Qed.

Lemma hidden_costs_two_views_witness :
  exists a r,
    analyze_property ascii_lower ascii_digit ascii_space sample_zones
      (text "Ajah") 45000000 (text "3-bedroom") = Return (Found a) /\
    calculate_roi ascii_lower sample_zones 45000000 (text "Ajah") 5 = Return (Found r) /\
    (total_hidden a == 850000)%Q /\ (one_time_costs r == 650000)%Q.
Proof.
  eexists. eexists. split; [vm_compute; reflexivity|].
  split; [vm_compute; reflexivity|].
  destruct (hidden_costs_two_views ascii_lower ascii_digit ascii_space sample_zones
              (text "Ajah") 45000000 45000000 (text "3-bedroom") 5 _ _
              ltac:(vm_compute; reflexivity) ltac:(vm_compute; reflexivity))
    as [z [Hget [Hview _]]].
  split; [reflexivity | reflexivity].
Defined.

(** ** Distances, over the reals *)

Section Metric.

Local Open Scope R_scope.

(** The quantity [a] is the haversine of the angle between two points of
    the sphere: it lies in [0, 1] for every pair of coordinates. *)
Lemma haversine_a_bounds (coord1 coord2 : point) :
  0 <= haversine_a coord1 coord2 <= 1.
Proof.
  unfold haversine_a.
  set (p1 := radians (Q2R (fst coord1))).
  set (p2 := radians (Q2R (fst coord2))).
  set (v := (radians (Q2R (snd coord2)) - radians (Q2R (snd coord1))) / 2).
  set (u := (p2 - p1) / 2).
  pose proof (cos_minus p2 p1) as Em.
  pose proof (cos_2a_sin u) as E2.
  replace (2 * u) with (p2 - p1) in E2 by (unfold u; lra).
  pose proof (sin2_cos2 p1) as S1. pose proof (sin2_cos2 p2) as S2.
  pose proof (sin2_cos2 v) as Sv. unfold Rsqr in S1, S2, Sv.
  set (s1 := sin p1) in *. set (c1 := cos p1) in *.
  set (s2 := sin p2) in *. set (c2 := cos p2) in *.
  set (t := sin v) in *. set (cv := cos v) in *. set (su := sin u) in *.
  assert (Ha : 2 * (su ^ 2 + c1 * c2 * t ^ 2)
               = 1 - (s1 * s2 + c1 * c2 * (1 - 2 * t ^ 2))) by nra.
  assert (Ht : 1 - 2 * t ^ 2 = cv * cv - t * t) by nra.
  set (w := 1 - 2 * t ^ 2) in *.
  assert (Hw : w * w <= 1).
  { assert (E : 1 - w * w = 4 * (t * t) * (cv * cv)) by (unfold w; nra).
    pose proof (Rle_0_sqr (t * cv)) as Hq. unfold Rsqr in Hq. nra. }
  assert (Hlo : 2 - 2 * (s1 * s2 + c1 * c2 * w)
                = (s1 - s2) ^ 2 + (c1 - c2 * w) ^ 2 + c2 * c2 * (1 - w * w)) by nra.
  assert (Hhi : 2 + 2 * (s1 * s2 + c1 * c2 * w)
                = (s1 + s2) ^ 2 + (c1 + c2 * w) ^ 2 + c2 * c2 * (1 - w * w)) by nra.
  pose proof (pow2_ge_0 (s1 - s2)). pose proof (pow2_ge_0 (c1 - c2 * w)).
  pose proof (pow2_ge_0 (s1 + s2)). pose proof (pow2_ge_0 (c1 + c2 * w)).
  assert (0 <= c2 * c2 * (1 - w * w)).
  { apply Rmult_le_pos; [|lra]. pose proof (Rle_0_sqr c2) as Hq. exact Hq. }
  split; lra.
Qed.

Lemma haversine_a_sym (coord1 coord2 : point) :
  haversine_a coord1 coord2 = haversine_a coord2 coord1.
Proof.
  unfold haversine_a.
  set (p1 := radians (Q2R (fst coord1))). set (p2 := radians (Q2R (fst coord2))).
  set (l1 := radians (Q2R (snd coord1))). set (l2 := radians (Q2R (snd coord2))).
  replace ((p1 - p2) / 2) with (- ((p2 - p1) / 2)) by lra.
  replace ((l1 - l2) / 2) with (- ((l2 - l1) / 2)) by lra.
  rewrite !sin_neg. ring.
Qed.

Lemma calculate_distance_haversine (coord1 coord2 : point) :
  _calculate_distance coord1 coord2 = Return (haversine_km coord1 coord2).
Proof. apply calculate_distance_value, haversine_a_bounds. Qed.






Lemma haversine_km_sym (coord1 coord2 : point) :
  haversine_km coord1 coord2 = haversine_km coord2 coord1.
Proof. unfold haversine_km. rewrite (haversine_a_sym coord1 coord2). reflexivity. Qed.



End Metric.

(** ** The corridor test, over the reals *)

Lemma is_along_route_haversine (origin destination candidate : point) (w : Q) :
  _is_along_route origin destination candidate w =
  Return (if Rle_dec (Rabs (haversine_km origin candidate
                            + haversine_km candidate destination
                            - haversine_km origin destination)) (Q2R w)
          then true else false).
Proof.
  apply is_along_route_value; apply calculate_distance_haversine.
Qed.

Lemma is_along_route_reversed (origin destination candidate : point) (w : Q) :
  _is_along_route origin destination candidate w
  = _is_along_route destination origin candidate w.
Proof.
  rewrite !is_along_route_haversine.
  rewrite (haversine_km_sym destination candidate),
          (haversine_km_sym candidate origin),
          (haversine_km_sym destination origin).
  replace (haversine_km candidate destination + haversine_km origin candidate
           - haversine_km origin destination)%R
    with (haversine_km origin candidate + haversine_km candidate destination
          - haversine_km origin destination)%R by ring.
  reflexivity.
Qed.

Lemma is_along_route_widths
    (origin destination candidate : point) (w1 w2 : Q) :
  (w1 <= w2)%Q ->
  exists b1 b2,
    _is_along_route origin destination candidate w1 = Return b1 /\
    _is_along_route origin destination candidate w2 = Return b2 /\
    (b1 = true -> b2 = true).
Proof.
  intros Hw. apply Qle_Rle in Hw. rewrite !is_along_route_haversine.
  eexists. eexists. split; [reflexivity|]. split; [reflexivity|].
  match goal with
  | |- context [Rle_dec ?a (Q2R w1)] =>
      destruct (Rle_dec a (Q2R w1)) as [H1|H1];
      destruct (Rle_dec a (Q2R w2)) as [H2|H2]
  end; intros E; try reflexivity; try discriminate E.
  exfalso. apply H2. apply Rle_trans with (1 := H1). exact Hw.
Qed.



(** ** The order of the matches *)

Lemma insert_by_distance_perm (p : corridor_property) (l : list corridor_property) :
  Permutation (p :: l) (insert_by_distance p l).
Proof.
  induction l as [|q l IH]; simpl.
  - apply Permutation_refl.
  - destruct (Rlt_dec (distance_from_origin_km q) (distance_from_origin_km p)).
    + apply perm_trans with (q :: p :: l); [apply perm_swap|].
      apply perm_skip. exact IH.
    + apply Permutation_refl.
Qed.

Lemma sort_by_distance_perm (l : list corridor_property) :
  Permutation l (sort_by_distance l).
Proof.
  induction l as [|p l IH]; simpl.
  - apply Permutation_refl.
  - apply perm_trans with (p :: sort_by_distance l).
    + apply perm_skip. exact IH.
    + apply insert_by_distance_perm.
Qed.

Lemma insert_by_distance_sorted (p : corridor_property) (l : list corridor_property) :
  StronglySorted (fun a b => (distance_from_origin_km a <= distance_from_origin_km b)%R) l ->
  StronglySorted (fun a b => (distance_from_origin_km a <= distance_from_origin_km b)%R)
    (insert_by_distance p l).
Proof.
  intros Hs. induction Hs as [|q l Hs IH Hall]; simpl.
  - constructor; constructor.
  - destruct (Rlt_dec (distance_from_origin_km q) (distance_from_origin_km p)) as [Hlt|Hge].
    + constructor; [exact IH|].
      apply Forall_forall. intros x Hx.
      apply (Permutation_in _ (Permutation_sym (insert_by_distance_perm p l))) in Hx.
      destruct Hx as [<-|Hx]; [lra|].
      rewrite Forall_forall in Hall. apply Hall. exact Hx.
    + constructor; [constructor; assumption|].
      constructor; [lra|].
      apply Forall_forall. intros x Hx.
      rewrite Forall_forall in Hall. specialize (Hall x Hx). lra.
Qed.

Lemma sort_by_distance_sorted (l : list corridor_property) :
  StronglySorted (fun a b => (distance_from_origin_km a <= distance_from_origin_km b)%R)
    (sort_by_distance l).
Proof.
  induction l as [|p l IH]; simpl.
  - constructor.
  - apply insert_by_distance_sorted. exact IH.
Qed.

(** The sort is stable: the matches at one distance keep their order. *)
Lemma sort_by_distance_stable (x : R) (l : list corridor_property) :
  filter (fun p => if Req_EM_T (distance_from_origin_km p) x then true else false)
    (sort_by_distance l)
  = filter (fun p => if Req_EM_T (distance_from_origin_km p) x then true else false) l.
Proof.
  set (at_x := fun p => if Req_EM_T (distance_from_origin_km p) x then true else false).
  assert (Hins : forall p m, filter at_x (insert_by_distance p m) = filter at_x (p :: m)).
  { intros p m. induction m as [|q m IH]; [reflexivity|].
    cbn [insert_by_distance].
    destruct (Rlt_dec (distance_from_origin_km q) (distance_from_origin_km p)) as [Hlt|Hge];
      [|reflexivity].
    cbn [filter] in *. rewrite IH. unfold at_x.
    destruct (Req_EM_T (distance_from_origin_km q) x) as [Eq|Nq];
      destruct (Req_EM_T (distance_from_origin_km p) x) as [Ep|Np];
      try reflexivity.
    exfalso. lra. }
  induction l as [|p l IH]; [reflexivity|].
  cbn [sort_by_distance fold_right]. fold (sort_by_distance l).
  rewrite Hins. cbn [filter]. rewrite IH. reflexivity.
Qed.

(** ** What a search returns *)

(** A report with status OK, taken apart: both endpoints were located, the
    route between them was found, and the matches are the sorted output of
    the loop over the repository. *)
Lemma search_route_corridor_OK
    (zones : zones_t) (gmaps_geocode : str -> option point)
    (gmaps_distance_matrix : point -> point -> matrix_reply)
    (origin destination : str) (w : Q) (max_price_per_sqm : option Z)
    (min_security_score max_flood_risk : Z) (report : corridor_report) :
  search_route_corridor zones gmaps_geocode gmaps_distance_matrix origin destination
    w max_price_per_sqm min_security_score max_flood_risk = Return (SearchOK report) ->
  exists origin_coords dest_coords distance_km duration_minutes l,
    _get_coordinates zones gmaps_geocode origin = Some origin_coords /\
    _get_coordinates zones gmaps_geocode destination = Some dest_coords /\
    _get_route_details gmaps_distance_matrix origin_coords dest_coords
    = RouteOK distance_km duration_minutes /\
    corridor_loop origin_coords dest_coords w max_price_per_sqm min_security_score
      max_flood_risk zones = Return l /\
    report = {| route_origin := origin;
                route_destination := destination;
                route_distance_km := distance_km;
                route_duration_minutes := duration_minutes;
                param_corridor_width_km := w;
                param_max_price_per_sqm := max_price_per_sqm;
                param_min_security_score := min_security_score;
                param_max_flood_risk := max_flood_risk;
                properties_found := length (sort_by_distance l);
                properties := sort_by_distance l |}.
Proof.
  intros Hrun. unfold search_route_corridor in Hrun.
  destruct (_get_coordinates zones gmaps_geocode origin) as [o|]; [|discriminate Hrun].
  destruct (_get_coordinates zones gmaps_geocode destination) as [d|];
    [|discriminate Hrun].
  destruct (_get_route_details gmaps_distance_matrix o d) as [km mins| |msg] eqn:Hr;
    try discriminate Hrun.
  apply bind_Return in Hrun. destruct Hrun as [l [Hl Hrun]].
  injection Hrun as <-.
  exists o, d, km, mins, l. repeat split; try reflexivity; assumption.
Qed.

Section LoopOutput.

Variables (origin_coords dest_coords : point) (corridor_width_km : Q).
Variables (max_price_per_sqm : option Z) (min_security_score max_flood_risk : Z).

(** The zones the loop keeps, in the order of the repository. *)
Lemma corridor_loop_names (zs : zones_t) (l : list corridor_property) :
  corridor_loop origin_coords dest_coords corridor_width_km max_price_per_sqm
    min_security_score max_flood_risk zs = Return l ->
  map zone_name l =
  map fst (filter (fun entry =>
                     match _is_along_route origin_coords dest_coords
                             (zone_point (snd entry)) corridor_width_km with
                     | Return along =>
                         along && passes_filters max_price_per_sqm min_security_score
                                    max_flood_risk (snd entry)
                     | Raise _ => false
                     end) zs).
Proof.
  revert l. induction zs as [|[name z] rest IH]; intros l Hrun.
  - simpl in Hrun. injection Hrun as <-. reflexivity.
  - rewrite corridor_loop_cons in Hrun. cbn [filter snd].
    destruct (_is_along_route origin_coords dest_coords (zone_point z)
                corridor_width_km) as [b|e]; [|discriminate Hrun].
    cbn [bind] in Hrun.
    destruct (b && passes_filters max_price_per_sqm min_security_score
                     max_flood_risk z).
    + apply bind_Return in Hrun. destruct Hrun as [d [Hd Hrun]].
      apply bind_Return in Hrun. destruct Hrun as [r [Hr Hrun]].
      apply bind_Return in Hrun. destruct Hrun as [others [Ho Hrun]].
      injection Hrun as <-. cbn [map fst zone_name corridor_entry].
      rewrite (IH others Ho). reflexivity.
    + apply IH. exact Hrun.
Qed.

Lemma corridor_loop_length (zs : zones_t) (l : list corridor_property) :
  corridor_loop origin_coords dest_coords corridor_width_km max_price_per_sqm
    min_security_score max_flood_risk zs = Return l ->
  (length l <= length zs)%nat.
Proof.
  intros Hrun. apply corridor_loop_names in Hrun.
  rewrite <- (length_map zone_name), Hrun, length_map.
  apply filter_length_le.
Qed.


End LoopOutput.

(** X9. A report with status OK repeats the request, counts its matches,
    and lists only zones of the repository: each match carries the name of
    a zone that is along the route and passes the three filters (a price
    ceiling of 0 or none does not filter), with the rounded distance from
    the origin to that zone and its route smart score; there are at most as
    many matches as zones. *)
Theorem search_route_corridor_matches
    (zones : zones_t) (gmaps_geocode : str -> option point)
    (gmaps_distance_matrix : point -> point -> matrix_reply)
    (origin destination : str) (w : Q) (max_price_per_sqm : option Z)
    (min_security_score max_flood_risk : Z) (report : corridor_report) :
  search_route_corridor zones gmaps_geocode gmaps_distance_matrix origin destination
    w max_price_per_sqm min_security_score max_flood_risk = Return (SearchOK report) ->
  exists origin_coords dest_coords,
    _get_coordinates zones gmaps_geocode origin = Some origin_coords /\
    _get_coordinates zones gmaps_geocode destination = Some dest_coords /\
    _get_route_details gmaps_distance_matrix origin_coords dest_coords
    = RouteOK (route_distance_km report) (route_duration_minutes report) /\
    route_origin report = origin /\ route_destination report = destination /\
    param_corridor_width_km report = w /\
    param_max_price_per_sqm report = max_price_per_sqm /\
    param_min_security_score report = min_security_score /\
    param_max_flood_risk report = max_flood_risk /\
    properties_found report = length (properties report) /\
    (properties_found report <= length zones)%nat /\
    forall p, In p (properties report) ->
      exists z,
        In (zone_name p, z) zones /\
        _is_along_route origin_coords dest_coords (zone_point z) w = Return true /\
        (min_security_score <= security_score (security z))%Z /\
        (flood_score (flood_risk z) <= max_flood_risk)%Z /\
        (forall m, max_price_per_sqm = Some m -> m <> 0%Z ->
                   (avg_price_per_sqm (market_data z) <= inject_Z m)%Q) /\
        distance_from_origin_km p = haversine_km origin_coords (zone_point z) /\
        _calculate_smart_score z = Return (cp_smart_score p) /\
        p = corridor_entry (zone_name p) z (distance_from_origin_km p) (cp_smart_score p).
Proof.
  intros Hrun.
  destruct (search_route_corridor_OK _ _ _ _ _ _ _ _ _ _ Hrun)
    as [o [d [km [mins [l [Ho [Hd [Hr [Hl ->]]]]]]]]].
  exists o, d. cbn [route_distance_km route_duration_minutes route_origin
                    route_destination param_corridor_width_km param_max_price_per_sqm
                    param_min_security_score param_max_flood_risk properties_found
                    properties].
  repeat (split; [first [assumption | reflexivity]|]).
  split.
  { rewrite sort_by_distance_length.
    apply (corridor_loop_length _ _ _ _ _ _ _ _ Hl). }
  intros p Hp. apply (proj1 (sort_by_distance_In p l)) in Hp.
  apply (corridor_loop_In o d w max_price_per_sqm min_security_score max_flood_risk
           zones l p Hl) in Hp.
  destruct Hp as [name [z [from_origin [smart [Hin [Halong [Hpass [Hdist [Hsmart ->]]]]]]]]].
  cbn [zone_name corridor_entry distance_from_origin_km cp_smart_score].
  exists z. split; [exact Hin|]. split; [exact Halong|].
  unfold passes_filters in Hpass.
  apply andb_true_iff in Hpass. destruct Hpass as [Hpass Hflood].
  apply andb_true_iff in Hpass. destruct Hpass as [Hprice Hsec].
  apply negb_true_iff in Hprice, Hsec, Hflood.
  split; [apply Z.ltb_ge; exact Hsec|].
  split; [rewrite Z.gtb_ltb in Hflood; apply Z.ltb_ge; exact Hflood|].
  split.
  { intros m -> Hm. unfold over_price_ceiling in Hprice.
    apply andb_false_iff in Hprice. destruct Hprice as [Hz|Hlt].
    - apply negb_false_iff, Z.eqb_eq in Hz. contradiction.
    - apply Qnot_lt_le. intros Hc. apply Qlt_bool_iff in Hc.
      rewrite Hc in Hlt. discriminate Hlt. }
  split.
  { rewrite calculate_distance_haversine in Hdist. injection Hdist as <-. reflexivity. }
  split; [exact Hsmart | reflexivity].
Qed.

Lemma search_route_corridor_matches_witness :
  exists report,
    search_route_corridor sample_zones no_geocoder sample_matrix
      (text "Ajah") (text "Lekki Phase 1") 5 None 50 80 = Return (SearchOK report) /\
    (properties_found report <= 2)%nat.
Proof.
  destruct (sample_search_returns 5 None 50%Z 80%Z) as [report [Hrun _]].
  exists report. split; [exact Hrun|].
  destruct (search_route_corridor_matches _ _ _ _ _ _ _ _ _ _ Hrun)
    as [o [d [_ [_ [_ [_ [_ [_ [_ [_ [_ [_ [Hcount _]]]]]]]]]]]]].
  exact Hcount.
Defined.

(** X10. The matches of a report are sorted by distance from the origin,
    the nearest first.  They are the zones the loop keeps, reordered: the
    names the loop collects are those of the zones along the route that
    pass the filters, in the order of the repository, and the sort is
    stable, so matches at the same distance stay in that order. *)
Theorem search_route_corridor_order
    (zones : zones_t) (gmaps_geocode : str -> option point)
    (gmaps_distance_matrix : point -> point -> matrix_reply)
    (origin destination : str) (w : Q) (max_price_per_sqm : option Z)
    (min_security_score max_flood_risk : Z) (report : corridor_report) :
  search_route_corridor zones gmaps_geocode gmaps_distance_matrix origin destination
    w max_price_per_sqm min_security_score max_flood_risk = Return (SearchOK report) ->
  StronglySorted
    (fun p q => (distance_from_origin_km p <= distance_from_origin_km q)%R)
    (properties report) /\
  exists origin_coords dest_coords l,
    _get_coordinates zones gmaps_geocode origin = Some origin_coords /\
    _get_coordinates zones gmaps_geocode destination = Some dest_coords /\
    corridor_loop origin_coords dest_coords w max_price_per_sqm min_security_score
      max_flood_risk zones = Return l /\
    map zone_name l =
    map fst (filter (fun entry =>
                       match _is_along_route origin_coords dest_coords
                               (zone_point (snd entry)) w with
                       | Return along =>
                           along && passes_filters max_price_per_sqm min_security_score
                                      max_flood_risk (snd entry)
                       | Raise _ => false
                       end) zones) /\
    Permutation l (properties report) /\
    forall x : R,
      filter (fun p => if Req_EM_T (distance_from_origin_km p) x then true else false)
        (properties report)
      = filter (fun p => if Req_EM_T (distance_from_origin_km p) x then true else false) l.
Proof.
  intros Hrun.
  destruct (search_route_corridor_OK _ _ _ _ _ _ _ _ _ _ Hrun)
    as [o [d [km [mins [l [Ho [Hd [Hr [Hl ->]]]]]]]]].
  cbn [properties]. split; [apply sort_by_distance_sorted|].
  exists o, d, l. split; [exact Ho|]. split; [exact Hd|]. split; [exact Hl|].
  split; [apply (corridor_loop_names _ _ _ _ _ _ _ _ Hl)|].
  split; [apply sort_by_distance_perm|].
  intros x. apply sort_by_distance_stable.
Qed.

Lemma search_route_corridor_order_witness :
  exists report,
    search_route_corridor sample_zones no_geocoder sample_matrix
      (text "Ajah") (text "Lekki Phase 1") 5 None 50 80 = Return (SearchOK report) /\
    StronglySorted
      (fun p q => (distance_from_origin_km p <= distance_from_origin_km q)%R)
      (properties report).
Proof.
  destruct (sample_search_returns 5 None 50%Z 80%Z) as [report [Hrun _]].
  exists report. split; [exact Hrun|].
  destruct (search_route_corridor_order _ _ _ _ _ _ _ _ _ _ Hrun) as [Hsorted _].
  exact Hsorted.
Defined.

(** ** Tighter and looser searches *)

Section LoopComparison.

Variables (origin_coords dest_coords : point).

(** Filters that let through no more zones give a sublist of the matches:
    those that pass the stricter filters. *)
Lemma corridor_loop_stricter (w : Q) (mp1 mp2 : option Z) (s1 s2 f1 f2 : Z)
    (zs : zones_t) (l1 : list corridor_property) :
  (forall z, passes_filters mp2 s2 f2 z = true -> passes_filters mp1 s1 f1 z = true) ->
  corridor_loop origin_coords dest_coords w mp1 s1 f1 zs = Return l1 ->
  corridor_loop origin_coords dest_coords w mp2 s2 f2 zs =
  Return (filter (fun p => negb (over_price_ceiling mp2 (price_per_sqm p))
                           && negb (cp_security_score p <? s2)%Z
                           && negb (flood_risk_score p >? f2)%Z) l1).
Proof.
  intros Himp. revert l1. induction zs as [|[name z] rest IH]; intros l1 Hrun.
  - simpl in Hrun. injection Hrun as <-. reflexivity.
  - rewrite corridor_loop_cons in Hrun. rewrite corridor_loop_cons.
    apply bind_Return in Hrun. destruct Hrun as [b [Hb Hrun]].
    rewrite Hb. cbn [bind].
    destruct (passes_filters mp2 s2 f2 z) eqn:H2.
    + rewrite (Himp z H2) in Hrun. destruct b; cbn [andb] in *.
      * apply bind_Return in Hrun. destruct Hrun as [d [Hd Hrun]].
        apply bind_Return in Hrun. destruct Hrun as [r [Hr Hrun]].
        apply bind_Return in Hrun. destruct Hrun as [others [Ho Hrun]].
        injection Hrun as <-. rewrite Hd, Hr, (IH others Ho). cbn [bind filter].
        unfold passes_filters in H2.
        cbn [corridor_entry price_per_sqm cp_security_score flood_risk_score].
        rewrite H2. reflexivity.
      * apply IH. exact Hrun.
    + rewrite andb_false_r.
      destruct (b && passes_filters mp1 s1 f1 z).
      * apply bind_Return in Hrun. destruct Hrun as [d [Hd Hrun]].
        apply bind_Return in Hrun. destruct Hrun as [r [Hr Hrun]].
        apply bind_Return in Hrun. destruct Hrun as [others [Ho Hrun]].
        injection Hrun as <-. cbn [filter].
        unfold passes_filters in H2.
        cbn [corridor_entry price_per_sqm cp_security_score flood_risk_score].
        rewrite H2. apply IH. exact Ho.
      * apply IH. exact Hrun.
Qed.

(** A narrower corridor gives a sublist of the matches. *)
Lemma corridor_loop_narrower (w1 w2 : Q) (max_price_per_sqm : option Z)
    (min_security_score max_flood_risk : Z) (zs : zones_t)
    (l2 : list corridor_property) :
  (w1 <= w2)%Q ->
  corridor_loop origin_coords dest_coords w2 max_price_per_sqm min_security_score
    max_flood_risk zs = Return l2 ->
  exists l1,
    corridor_loop origin_coords dest_coords w1 max_price_per_sqm min_security_score
      max_flood_risk zs = Return l1 /\
    incl l1 l2 /\ (length l1 <= length l2)%nat.
Proof.
  intros Hw. revert l2. induction zs as [|[name z] rest IH]; intros l2 Hrun.
  - simpl in Hrun. injection Hrun as <-. exists []. split; [reflexivity|].
    split; [apply incl_refl | apply le_n].
  - rewrite corridor_loop_cons in Hrun. rewrite corridor_loop_cons.
    destruct (is_along_route_widths origin_coords dest_coords
                (zone_point z) w1 w2 Hw) as [b1 [b2 [Hb1 [Hb2 Hb]]]].
    rewrite Hb2 in Hrun. rewrite Hb1. cbn [bind] in *.
    destruct (passes_filters max_price_per_sqm min_security_score max_flood_risk z).
    + destruct b1.
      * rewrite (Hb eq_refl) in Hrun. cbn [andb] in *.
        apply bind_Return in Hrun. destruct Hrun as [d [Hd Hrun]].
        apply bind_Return in Hrun. destruct Hrun as [r [Hr Hrun]].
        apply bind_Return in Hrun. destruct Hrun as [others [Ho Hrun]].
        injection Hrun as <-. destruct (IH others Ho) as [l1 [Hl1 [Hincl Hlen]]].
        rewrite Hd, Hr, Hl1. cbn [bind]. eexists. split; [reflexivity|].
        split.
        -- intros p [<-|Hp]; [left; reflexivity | right; apply Hincl; exact Hp].
        -- simpl. lia.
      * cbn [andb]. destruct b2; cbn [andb] in Hrun.
        -- apply bind_Return in Hrun. destruct Hrun as [d [Hd Hrun]].
           apply bind_Return in Hrun. destruct Hrun as [r [Hr Hrun]].
           apply bind_Return in Hrun. destruct Hrun as [others [Ho Hrun]].
           injection Hrun as <-. destruct (IH others Ho) as [l1 [Hl1 [Hincl Hlen]]].
           exists l1. split; [exact Hl1|]. split.
           ++ intros p Hp. right. apply Hincl. exact Hp.
           ++ simpl. lia.
        -- apply IH. exact Hrun.
    + rewrite !andb_false_r in *. apply IH. exact Hrun.
Qed.

(** The loop of the return trip keeps the same zones. *)
Lemma corridor_loop_reverse (w : Q) (max_price_per_sqm : option Z)
    (min_security_score max_flood_risk : Z) (zs : zones_t)
    (l1 : list corridor_property) :
  corridor_loop origin_coords dest_coords w max_price_per_sqm min_security_score
    max_flood_risk zs = Return l1 ->
  exists l2,
    corridor_loop dest_coords origin_coords w max_price_per_sqm min_security_score
      max_flood_risk zs = Return l2 /\
    map zone_name l1 = map zone_name l2 /\
    map cp_smart_score l1 = map cp_smart_score l2.
Proof.
  revert l1. induction zs as [|[name z] rest IH]; intros l1 Hrun.
  - simpl in Hrun. injection Hrun as <-. exists []. repeat split.
  - rewrite corridor_loop_cons in Hrun. rewrite corridor_loop_cons.
    destruct (is_along_route_widths origin_coords dest_coords
                (zone_point z) w w (Qle_refl w)) as [b [_ [Hb [_ _]]]].
    pose proof (is_along_route_reversed origin_coords dest_coords (zone_point z) w)
      as Hrev.
    rewrite Hb in Hrun. rewrite <- Hrev, Hb. cbn [bind] in *.
    destruct (b && passes_filters max_price_per_sqm min_security_score max_flood_risk z).
    + apply bind_Return in Hrun. destruct Hrun as [d [Hd Hrun]].
      apply bind_Return in Hrun. destruct Hrun as [r [Hr Hrun]].
      apply bind_Return in Hrun. destruct Hrun as [others [Ho Hrun]].
      injection Hrun as <-. destruct (IH others Ho) as [l2 [Hl2 [Hn Hs]]].
      rewrite calculate_distance_haversine, Hr, Hl2. cbn [bind].
      eexists. split; [reflexivity|].
      cbn [map zone_name cp_smart_score corridor_entry].
      rewrite Hn, Hs. split; reflexivity.
    + apply IH. exact Hrun.
Qed.

End LoopComparison.

Lemma passes_filters_tighter (mp1 mp2 : option Z) (s1 s2 f1 f2 : Z) (z : zone) :
  (s1 <= s2)%Z -> (f2 <= f1)%Z ->
  (mp1 = None \/ mp1 = Some 0%Z \/
   exists m1 m2, mp1 = Some m1 /\ mp2 = Some m2 /\ m2 <> 0%Z /\ (m2 <= m1)%Z) ->
  passes_filters mp2 s2 f2 z = true -> passes_filters mp1 s1 f1 z = true.
Proof.
  intros Hs Hf Hm Hpass. unfold passes_filters in *.
  apply andb_true_iff in Hpass. destruct Hpass as [Hpass Hflood].
  apply andb_true_iff in Hpass. destruct Hpass as [Hprice Hsec].
  apply negb_true_iff in Hprice, Hsec, Hflood.
  rewrite Z.gtb_ltb in Hflood. apply Z.ltb_ge in Hflood, Hsec.
  assert (H1 : over_price_ceiling mp1 (avg_price_per_sqm (market_data z)) = false).
  { destruct Hm as [->|[->|[m1 [m2 [-> [-> [Hnz Hle]]]]]]]; try reflexivity.
    unfold over_price_ceiling in *.
    apply andb_false_iff in Hprice. destruct Hprice as [Hz|Hlt].
    - apply negb_false_iff, Z.eqb_eq in Hz. contradiction.
    - apply andb_false_iff. right.
      destruct (Qlt_bool (inject_Z m1) (avg_price_per_sqm (market_data z))) eqn:E;
        [|reflexivity].
      apply Qlt_bool_iff in E.
      assert (Hc : (inject_Z m2 < avg_price_per_sqm (market_data z))%Q).
      { apply Qle_lt_trans with (2 := E). rewrite <- Zle_Qle. exact Hle. }
      apply Qlt_bool_iff in Hc. rewrite Hc in Hlt. discriminate Hlt. }
  rewrite H1. cbn [negb andb].
  assert (H2 : (security_score (security z) <? s1)%Z = false) by (apply Z.ltb_ge; lia).
  assert (H3 : (flood_score (flood_risk z) >? f1)%Z = false)
    by (rewrite Z.gtb_ltb; apply Z.ltb_ge; lia).
  rewrite H2, H3. reflexivity.
Qed.

(** X11. Tightening the filters only removes matches.  With the route and
    the corridor fixed, take a search that returns a report, and a second
    one with a security floor not lower, a flood ceiling not higher and,
    unless the first has no price ceiling (none, or 0), a price ceiling
    that is not 0 and not higher.  The second search returns a report for
    the same route, and its matches are exactly the matches of the first
    that pass the tighter filters: a subset, of a count not larger. *)
Theorem tighter_filters_only_remove
    (zones : zones_t) (gmaps_geocode : str -> option point)
    (gmaps_distance_matrix : point -> point -> matrix_reply)
    (origin destination : str) (w : Q) (mp1 mp2 : option Z) (s1 s2 f1 f2 : Z)
    (r1 : corridor_report) :
  (s1 <= s2)%Z -> (f2 <= f1)%Z ->
  (mp1 = None \/ mp1 = Some 0%Z \/
   exists m1 m2, mp1 = Some m1 /\ mp2 = Some m2 /\ m2 <> 0%Z /\ (m2 <= m1)%Z) ->
  search_route_corridor zones gmaps_geocode gmaps_distance_matrix origin destination
    w mp1 s1 f1 = Return (SearchOK r1) ->
  exists r2,
    search_route_corridor zones gmaps_geocode gmaps_distance_matrix origin destination
      w mp2 s2 f2 = Return (SearchOK r2) /\
    (forall p, In p (properties r2) <->
               In p (properties r1) /\
               over_price_ceiling mp2 (price_per_sqm p) = false /\
               (s2 <= cp_security_score p)%Z /\ (flood_risk_score p <= f2)%Z) /\
    incl (properties r2) (properties r1) /\
    (properties_found r2 <= properties_found r1)%nat /\
    route_distance_km r2 = route_distance_km r1 /\
    route_duration_minutes r2 = route_duration_minutes r1.
Proof.
  intros Hs Hf Hm Hrun.
  destruct (search_route_corridor_OK _ _ _ _ _ _ _ _ _ _ Hrun)
    as [o [d [km [mins [l1 [Ho [Hd [Hr [Hl1 ->]]]]]]]]].
  rewrite (search_route_corridor_run zones gmaps_geocode gmaps_distance_matrix
             origin destination o d km mins Ho Hd Hr).
  rewrite (corridor_loop_stricter o d w mp1 mp2 s1 s2 f1 f2 zones l1
             (fun z => passes_filters_tighter mp1 mp2 s1 s2 f1 f2 z Hs Hf Hm) Hl1).
  cbn [bind]. eexists. split; [reflexivity|].
  cbn [properties properties_found route_distance_km route_duration_minutes].
  assert (Hiff : forall p,
            In p (sort_by_distance
                    (filter (fun p => negb (over_price_ceiling mp2 (price_per_sqm p))
                                      && negb (cp_security_score p <? s2)%Z
                                      && negb (flood_risk_score p >? f2)%Z) l1)) <->
            In p (sort_by_distance l1) /\
            over_price_ceiling mp2 (price_per_sqm p) = false /\
            (s2 <= cp_security_score p)%Z /\ (flood_risk_score p <= f2)%Z).
  { intros p.
    rewrite !sort_by_distance_In, filter_In, !andb_true_iff, !negb_true_iff,
            Z.gtb_ltb, !Z.ltb_ge.
    tauto. }
  split; [exact Hiff|]. split; [|split; [|split; reflexivity]].
  - intros p Hp. apply Hiff in Hp. tauto.
  - rewrite !sort_by_distance_length. apply filter_length_le.
Qed.

Lemma tighter_filters_only_remove_witness :
  exists r1 r2,
    search_route_corridor sample_zones no_geocoder sample_matrix
      (text "Ajah") (text "Lekki Phase 1") 5 None 50 80 = Return (SearchOK r1) /\
    search_route_corridor sample_zones no_geocoder sample_matrix
      (text "Ajah") (text "Lekki Phase 1") 5 (Some 400000%Z) 50 70
    = Return (SearchOK r2) /\
    incl (properties r2) (properties r1).
Proof.
  destruct (sample_search_returns 5 None 50%Z 80%Z) as [r1 [Hrun _]].
  destruct (tighter_filters_only_remove sample_zones no_geocoder sample_matrix
              (text "Ajah") (text "Lekki Phase 1") 5 None (Some 400000%Z)
              50%Z 50%Z 80%Z 70%Z r1 ltac:(lia) ltac:(lia) (or_introl eq_refl) Hrun)
    as [r2 [Hrun2 [_ [Hincl _]]]].
  exists r1, r2. repeat split; assumption.
Defined.

(** X12. Narrowing the corridor only removes matches: when the search with
    the wider corridor returns a report, so does the search with the
    narrower one, for the same route, and each of its matches is a match of
    the wider search, with the same distance and score. *)
Theorem narrower_corridor_only_removes
    (zones : zones_t) (gmaps_geocode : str -> option point)
    (gmaps_distance_matrix : point -> point -> matrix_reply)
    (origin destination : str) (w1 w2 : Q) (max_price_per_sqm : option Z)
    (min_security_score max_flood_risk : Z) (r2 : corridor_report) :
  (w1 <= w2)%Q ->
  search_route_corridor zones gmaps_geocode gmaps_distance_matrix origin destination
    w2 max_price_per_sqm min_security_score max_flood_risk = Return (SearchOK r2) ->
  exists r1,
    search_route_corridor zones gmaps_geocode gmaps_distance_matrix origin destination
      w1 max_price_per_sqm min_security_score max_flood_risk = Return (SearchOK r1) /\
    incl (properties r1) (properties r2) /\
    (properties_found r1 <= properties_found r2)%nat /\
    route_distance_km r1 = route_distance_km r2 /\
    route_duration_minutes r1 = route_duration_minutes r2.
Proof.
  intros Hw Hrun.
  destruct (search_route_corridor_OK _ _ _ _ _ _ _ _ _ _ Hrun)
    as [o [d [km [mins [l2 [Ho [Hd [Hr [Hl2 ->]]]]]]]]].
  destruct (corridor_loop_narrower o d w1 w2 max_price_per_sqm min_security_score
              max_flood_risk zones l2 Hw Hl2) as [l1 [Hl1 [Hincl Hlen]]].
  rewrite (search_route_corridor_run zones gmaps_geocode gmaps_distance_matrix
             origin destination o d km mins Ho Hd Hr), Hl1.
  cbn [bind]. eexists. split; [reflexivity|].
  cbn [properties properties_found route_distance_km route_duration_minutes].
  split; [|split; [|split; reflexivity]].
  - intros p Hp. apply sort_by_distance_In. apply Hincl.
    apply (proj1 (sort_by_distance_In p l1)). exact Hp.
  - rewrite !sort_by_distance_length. exact Hlen.
Qed.

Lemma narrower_corridor_only_removes_witness :
  exists r1 r2,
    search_route_corridor sample_zones no_geocoder sample_matrix
      (text "Ajah") (text "Lekki Phase 1") 5 None 50 80 = Return (SearchOK r2) /\
    search_route_corridor sample_zones no_geocoder sample_matrix
      (text "Ajah") (text "Lekki Phase 1") 1 None 50 80 = Return (SearchOK r1) /\
    (properties_found r1 <= properties_found r2)%nat.
Proof.
  destruct (sample_search_returns 5 None 50%Z 80%Z) as [r2 [Hrun _]].
  destruct (narrower_corridor_only_removes sample_zones no_geocoder sample_matrix
              (text "Ajah") (text "Lekki Phase 1") 1 5 None 50%Z 80%Z r2
              ltac:(discriminate) Hrun) as [r1 [Hrun1 [_ [Hcount _]]]].
  exists r1, r2. repeat split; assumption.
Defined.

(** X13. The return trip finds the same zones.  When the search from the
    origin to the destination returns a report, the search from the
    destination to the origin with the same corridor and filters does not
    raise, and when the route back is found its matches name the same zones,
    with the same smart scores, as many of them; only their distances (now
    from the other end) and so their order can differ. *)
Theorem return_trip_same_zones
    (zones : zones_t) (gmaps_geocode : str -> option point)
    (gmaps_distance_matrix : point -> point -> matrix_reply)
    (origin destination : str) (w : Q) (max_price_per_sqm : option Z)
    (min_security_score max_flood_risk : Z) (r1 : corridor_report) :
  search_route_corridor zones gmaps_geocode gmaps_distance_matrix origin destination
    w max_price_per_sqm min_security_score max_flood_risk = Return (SearchOK r1) ->
  exists back,
    search_route_corridor zones gmaps_geocode gmaps_distance_matrix destination origin
      w max_price_per_sqm min_security_score max_flood_risk = Return back /\
    forall r2, back = SearchOK r2 ->
      Permutation (map zone_name (properties r1)) (map zone_name (properties r2)) /\
      Permutation (map cp_smart_score (properties r1))
                  (map cp_smart_score (properties r2)) /\
      properties_found r2 = properties_found r1.
Proof.
  intros Hrun.
  destruct (search_route_corridor_OK _ _ _ _ _ _ _ _ _ _ Hrun)
    as [o [d [km [mins [l1 [Ho [Hd [Hr [Hl1 ->]]]]]]]]].
  destruct (corridor_loop_reverse o d w max_price_per_sqm min_security_score
              max_flood_risk zones l1 Hl1) as [l2 [Hl2 [Hnames Hscores]]].
  unfold search_route_corridor at 1. rewrite Hd, Ho.
  destruct (_get_route_details gmaps_distance_matrix d o) as [km' mins'| |msg];
    try (eexists; split; [reflexivity|]; intros r2 E; discriminate E).
  rewrite Hl2. cbn [bind]. eexists. split; [reflexivity|].
  intros r2 E. injection E as <-. cbn [properties properties_found].
  split; [|split].
  - apply perm_trans with (map zone_name l1).
    + apply Permutation_map, Permutation_sym, sort_by_distance_perm.
    + rewrite Hnames. apply Permutation_map, sort_by_distance_perm.
  - apply perm_trans with (map cp_smart_score l1).
    + apply Permutation_map, Permutation_sym, sort_by_distance_perm.
    + rewrite Hscores. apply Permutation_map, sort_by_distance_perm.
  - rewrite !sort_by_distance_length.
    rewrite <- (length_map zone_name l2), <- Hnames, length_map. reflexivity.
Qed.

Lemma return_trip_same_zones_witness :
  exists r1 back,
    search_route_corridor sample_zones no_geocoder sample_matrix
      (text "Ajah") (text "Lekki Phase 1") 5 None 50 80 = Return (SearchOK r1) /\
    search_route_corridor sample_zones no_geocoder sample_matrix
      (text "Lekki Phase 1") (text "Ajah") 5 None 50 80 = Return back.
Proof.
  destruct (sample_search_returns 5 None 50%Z 80%Z) as [r1 [Hrun _]].
  destruct (return_trip_same_zones sample_zones no_geocoder sample_matrix
              (text "Ajah") (text "Lekki Phase 1") 5 None 50%Z 80%Z r1 Hrun)
    as [back [Hback _]].
  exists r1, back. split; assumption.
Defined.



(** ** Comparing routes *)

Lemma insert_by_count_perm (c : route_comparison) (l : list route_comparison) :
  Permutation (c :: l) (insert_by_count c l).
Proof.
  induction l as [|d l IH]; simpl.
  - apply Permutation_refl.
  - destruct (rc_properties_found c <? rc_properties_found d)%nat.
    + apply perm_trans with (d :: c :: l); [apply perm_swap|].
      apply perm_skip. exact IH.
    + apply Permutation_refl.
Qed.

Lemma sort_by_count_perm (l : list route_comparison) :
  Permutation l (sort_by_count l).
Proof.
  induction l as [|c l IH]; simpl.
  - apply Permutation_refl.
  - apply perm_trans with (c :: sort_by_count l).
    + apply perm_skip. exact IH.
    + apply insert_by_count_perm.
Qed.

Lemma insert_by_count_sorted (c : route_comparison) (l : list route_comparison) :
  StronglySorted (fun a b => (rc_properties_found b <= rc_properties_found a)%nat) l ->
  StronglySorted (fun a b => (rc_properties_found b <= rc_properties_found a)%nat)
    (insert_by_count c l).
Proof.
  intros Hs. induction Hs as [|d l Hs IH Hall]; simpl.
  - constructor; constructor.
  - destruct (rc_properties_found c <? rc_properties_found d)%nat eqn:Hlt.
    + apply Nat.ltb_lt in Hlt. constructor; [exact IH|].
      apply Forall_forall. intros x Hx.
      apply (Permutation_in _ (Permutation_sym (insert_by_count_perm c l))) in Hx.
      destruct Hx as [<-|Hx]; [lia|].
      rewrite Forall_forall in Hall. apply Hall. exact Hx.
    + apply Nat.ltb_ge in Hlt. constructor; [constructor; assumption|].
      constructor; [exact Hlt|].
      apply Forall_forall. intros x Hx.
      rewrite Forall_forall in Hall. specialize (Hall x Hx). lia.
Qed.

Lemma sort_by_count_sorted (l : list route_comparison) :
  StronglySorted (fun a b => (rc_properties_found b <= rc_properties_found a)%nat)
    (sort_by_count l).
Proof.
  induction l as [|c l IH]; simpl.
  - constructor.
  - apply insert_by_count_sorted. exact IH.
Qed.

Lemma sort_by_count_stable (n : nat) (l : list route_comparison) :
  filter (fun c => (rc_properties_found c =? n)%nat) (sort_by_count l)
  = filter (fun c => (rc_properties_found c =? n)%nat) l.
Proof.
  assert (Hins : forall c m,
            filter (fun c => (rc_properties_found c =? n)%nat) (insert_by_count c m)
            = filter (fun c => (rc_properties_found c =? n)%nat) (c :: m)).
  { intros c m. induction m as [|d m IH]; [reflexivity|].
    cbn [insert_by_count].
    destruct (rc_properties_found c <? rc_properties_found d)%nat eqn:Hlt;
      [|reflexivity].
    apply Nat.ltb_lt in Hlt. cbn [filter] in *. rewrite IH.
    destruct (rc_properties_found d =? n)%nat eqn:Ed;
      destruct (rc_properties_found c =? n)%nat eqn:Ec; try reflexivity.
    apply Nat.eqb_eq in Ed, Ec. lia. }
  induction l as [|c l IH]; [reflexivity|].
  cbn [sort_by_count fold_right]. fold (sort_by_count l).
  rewrite Hins. cbn [filter]. rewrite IH. reflexivity.
Qed.

Section Comparison.

Variable zones : zones_t.
Variable gmaps_geocode : str -> option point.
Variable gmaps_distance_matrix : point -> point -> matrix_reply.
Variable origin : str.

(** What the loop of [compare_routes] collects: one comparison for each
    destination whose search has the status OK, in the order given. *)
Lemma compare_loop_spec (destinations : list str) (cs : list route_comparison) :
  compare_loop zones gmaps_geocode gmaps_distance_matrix origin destinations = Return cs ->
  map rc_destination cs =
  filter (fun dest =>
            match search_route_corridor zones gmaps_geocode gmaps_distance_matrix
                    origin dest 5 None 50 70 with
            | Return (SearchOK _) => true
            | _ => false
            end) destinations /\
  forall c, In c cs ->
    In (rc_destination c) destinations /\
    exists report,
      search_route_corridor zones gmaps_geocode gmaps_distance_matrix
        origin (rc_destination c) 5 None 50 70 = Return (SearchOK report) /\
      rc_distance_km c = route_distance_km report /\
      rc_duration_minutes c = route_duration_minutes report /\
      rc_properties_found c = properties_found report /\
      rc_avg_price_per_sqm c = _calculate_avg_price (properties report) /\
      best_property c = hd_error (properties report).
Proof.
  revert cs. induction destinations as [|dest rest IH]; intros cs Hrun.
  - simpl in Hrun. injection Hrun as <-. split; [reflexivity | intros c []].
  - cbn [compare_loop] in Hrun.
    apply bind_Return in Hrun. destruct Hrun as [result [Hres Hrun]].
    apply bind_Return in Hrun. destruct Hrun as [others [Ho Hrun]].
    destruct (IH others Ho) as [Hnames Hall].
    cbn [filter]. rewrite Hres.
    destruct result as [info|report]; injection Hrun as <-.
    + split; [exact Hnames|]. intros c Hc. destruct (Hall c Hc) as [Hin Hrep].
      split; [right; exact Hin | exact Hrep].
    + split; [cbn [map rc_destination]; rewrite Hnames; reflexivity|].
      intros c [<-|Hc].
      * cbn [rc_destination rc_distance_km rc_duration_minutes rc_properties_found
             rc_avg_price_per_sqm best_property].
        split; [left; reflexivity|]. exists report.
        split; [exact Hres|]. repeat split.
        destruct (properties report); reflexivity.
      * destruct (Hall c Hc) as [Hin Hrep]. split; [right; exact Hin | exact Hrep].
Qed.

End Comparison.

(** X15. [compare_routes] ranks the destinations whose search has the
    status OK and leaves the others out: the comparisons come with the
    larger number of matches first, destinations with the same number in
    the order they were given; each one repeats the distance, the duration
    and the number of matches of its search, and its best property is the
    first match of that search, the nearest to the origin, or none when
    there is no match. *)
Theorem compare_routes_ranking
    (zones : zones_t) (gmaps_geocode : str -> option point)
    (gmaps_distance_matrix : point -> point -> matrix_reply)
    (origin : str) (destinations : list str) (cs : list route_comparison) :
  compare_routes zones gmaps_geocode gmaps_distance_matrix origin destinations
  = Return cs ->
  StronglySorted (fun a b => (rc_properties_found b <= rc_properties_found a)%nat) cs /\
  (length cs <= length destinations)%nat /\
  (exists unsorted,
     compare_loop zones gmaps_geocode gmaps_distance_matrix origin destinations
     = Return unsorted /\
     map rc_destination unsorted =
     filter (fun dest =>
               match search_route_corridor zones gmaps_geocode gmaps_distance_matrix
                       origin dest 5 None 50 70 with
               | Return (SearchOK _) => true
               | _ => false
               end) destinations /\
     Permutation unsorted cs /\
     forall n, filter (fun c => (rc_properties_found c =? n)%nat) cs
               = filter (fun c => (rc_properties_found c =? n)%nat) unsorted) /\
  forall c, In c cs ->
    In (rc_destination c) destinations /\
    exists report,
      search_route_corridor zones gmaps_geocode gmaps_distance_matrix
        origin (rc_destination c) 5 None 50 70 = Return (SearchOK report) /\
      rc_distance_km c = route_distance_km report /\
      rc_duration_minutes c = route_duration_minutes report /\
      rc_properties_found c = length (properties report) /\
      best_property c = hd_error (properties report) /\
      (best_property c = None <-> rc_properties_found c = 0%nat) /\
      (rc_properties_found c = 0%nat -> rc_avg_price_per_sqm c = 0%Z) /\
      forall best p, best_property c = Some best -> In p (properties report) ->
                     (distance_from_origin_km best <= distance_from_origin_km p)%R.
Proof.
  intros Hrun. unfold compare_routes in Hrun.
  apply bind_Return in Hrun. destruct Hrun as [unsorted [Hloop Hrun]].
  injection Hrun as <-.
  destruct (compare_loop_spec _ _ _ _ _ _ Hloop) as [Hnames Hall].
  split; [apply sort_by_count_sorted|]. split.
  { rewrite <- (Permutation_length (sort_by_count_perm unsorted)).
    rewrite <- (length_map rc_destination), Hnames. apply filter_length_le. }
  split.
  { exists unsorted. split; [exact Hloop|]. split; [exact Hnames|].
    split; [apply sort_by_count_perm|]. intros n. apply sort_by_count_stable. }
  intros c Hc.
  apply (Permutation_in _ (Permutation_sym (sort_by_count_perm unsorted))) in Hc.
  destruct (Hall c Hc) as [Hin [report [Hsearch [Hkm [Hmin [Hcount [Havg Hbest]]]]]]].
  split; [exact Hin|]. exists report.
  destruct (search_route_corridor_OK _ _ _ _ _ _ _ _ _ _ Hsearch)
    as [o [d [km [mins [l [_ [_ [_ [_ Hrep]]]]]]]]].
  assert (Hlen : properties_found report = length (properties report))
    by (rewrite Hrep; reflexivity).
  assert (Hsorted : StronglySorted
                      (fun p q => (distance_from_origin_km p
                                   <= distance_from_origin_km q)%R)
                      (properties report))
    by (rewrite Hrep; apply sort_by_distance_sorted).
  split; [exact Hsearch|]. split; [exact Hkm|]. split; [exact Hmin|].
  split; [rewrite Hcount; exact Hlen|]. split; [exact Hbest|].
  rewrite Hbest, Havg, Hcount, Hlen.
  destruct (properties report) as [|first others]; cbn [hd_error length].
  - split; [tauto|]. split; [reflexivity|]. intros best p E. discriminate E.
  - split; [split; intros E; discriminate E|].
    split; [intros E; discriminate E|].
    intros best p E [<-|Hp]; injection E as <-; [apply Rle_refl|].
    apply StronglySorted_inv in Hsorted. destruct Hsorted as [_ Hfirst].
    rewrite Forall_forall in Hfirst. apply Hfirst. exact Hp.
Qed.

Lemma compare_routes_ranking_witness :
  exists cs,
    compare_routes sample_zones no_geocoder sample_matrix
      (text "Ajah") [text "Lekki Phase 1"] = Return cs /\
    (length cs <= 1)%nat.
Proof.
  destruct (sample_search_returns 5 None 50%Z 70%Z) as [report [Hrun _]].
  assert (Hcs : exists cs,
            compare_routes sample_zones no_geocoder sample_matrix
              (text "Ajah") [text "Lekki Phase 1"] = Return cs).
  { unfold compare_routes. cbn [compare_loop]. rewrite Hrun. cbn [bind].
    eexists. reflexivity. }
  destruct Hcs as [cs Hcs]. exists cs. split; [exact Hcs|].
  destruct (compare_routes_ranking _ _ _ _ _ _ Hcs) as [_ [Hlen _]].
  exact Hlen.
Defined.





(** ** The price verdict *)

Lemma classify_price_monotone (offered1 offered2 low_range high_range : Q) :
  (offered1 <= offered2)%Q ->
  (classify_price offered2 low_range high_range = UNDERPRICED ->
   classify_price offered1 low_range high_range = UNDERPRICED) /\
  (classify_price offered2 low_range high_range = FAIR ->
   classify_price offered1 low_range high_range = UNDERPRICED \/
   classify_price offered1 low_range high_range = FAIR) /\
  (classify_price offered1 low_range high_range = ELEVATED ->
   classify_price offered2 low_range high_range = ELEVATED \/
   classify_price offered2 low_range high_range = OVERPRICED) /\
  (classify_price offered1 low_range high_range = OVERPRICED ->
   classify_price offered2 low_range high_range = OVERPRICED) /\
  classify_price offered1 low_range high_range <> UNKNOWN.
Proof.
  intros Hle. unfold classify_price.
  set (mid_range := ((low_range + high_range) / 2)%Q).
  set (floor := (low_range * (9 # 10))%Q).
  clearbody mid_range floor.
  destruct (Qlt_bool offered1 floor) eqn:U1;
    destruct (Qlt_bool offered2 floor) eqn:U2;
    destruct (Qle_bool offered1 mid_range) eqn:F1;
    destruct (Qle_bool offered2 mid_range) eqn:F2;
    destruct (Qle_bool offered1 high_range) eqn:E1;
    destruct (Qle_bool offered2 high_range) eqn:E2;
    repeat split; intros H; try discriminate H; try tauto; exfalso;
    repeat match goal with
           | H : Qlt_bool _ _ = true |- _ => apply Qlt_bool_iff in H
           | H : Qlt_bool _ _ = false |- _ =>
               unfold Qlt_bool in H; apply negb_false_iff, Qle_bool_iff in H
           | H : Qle_bool _ _ = true |- _ => apply Qle_bool_iff in H
           | H : Qle_bool _ _ = false |- _ => apply Qle_bool_false in H
           end; lraQ.
Qed.

(** X17. The price verdict never gets milder as the offer grows.  For a
    zone and two offers, the lower one first, the two verdicts quote the
    same range and the same median; they are UNKNOWN together; and on the
    scale UNDERPRICED, FAIR, ELEVATED, OVERPRICED the verdict of the higher
    offer is never below that of the lower one, whatever the range text,
    even one written with its bounds reversed. *)
Theorem evaluate_price_monotone
    (unicode_digit : char -> option N) (unicode_space : char -> bool)
    (zones_data : zones_t) (offered1 offered2 avg1 avg2 : Q) (location : str)
    (v1 v2 : price_verdict) :
  (offered1 <= offered2)%Q ->
  _evaluate_price unicode_digit unicode_space zones_data offered1 avg1 location
  = Return v1 ->
  _evaluate_price unicode_digit unicode_space zones_data offered2 avg2 location
  = Return v2 ->
  market_range v1 = market_range v2 /\
  market_median v1 = market_median v2 /\
  (status v1 = UNKNOWN <-> status v2 = UNKNOWN) /\
  (status v2 = UNDERPRICED -> status v1 = UNDERPRICED) /\
  (status v2 = FAIR -> status v1 = UNDERPRICED \/ status v1 = FAIR) /\
  (status v1 = ELEVATED -> status v2 = ELEVATED \/ status v2 = OVERPRICED) /\
  (status v1 = OVERPRICED -> status v2 = OVERPRICED).
Proof.
  intros Hle H1 H2. unfold _evaluate_price in H1, H2.
  destruct (dict_get zones_data location) as [z|]; [|discriminate H1].
  destruct (search_range unicode_digit unicode_space (price_range (market_data z)))
    as [[lo hi]|]; injection H1 as <-; injection H2 as <-;
    cbn [market_range market_median status].
  - destruct (classify_price_monotone offered1 offered2
                (float_of_digits unicode_digit lo * 1000000)
                (float_of_digits unicode_digit hi * 1000000) Hle)
      as [Hu [Hf [He [Ho Hn1]]]].
    destruct (classify_price_monotone offered2 offered2
                (float_of_digits unicode_digit lo * 1000000)
                (float_of_digits unicode_digit hi * 1000000) (Qle_refl _))
      as [_ [_ [_ [_ Hn2]]]].
    repeat split; try assumption; intros E; contradiction.
  - repeat split; intros E; try reflexivity; discriminate E.
Qed.

Lemma evaluate_price_monotone_witness :
  exists v1 v2,
    _evaluate_price ascii_digit ascii_space sample_zones 30000000 180000 (text "Ajah")
    = Return v1 /\
    _evaluate_price ascii_digit ascii_space sample_zones 70000000 180000 (text "Ajah")
    = Return v2 /\
    (status v1 = OVERPRICED -> status v2 = OVERPRICED).
Proof.
  eexists. eexists. split; [vm_compute; reflexivity|].
  split; [vm_compute; reflexivity|].
  apply (evaluate_price_monotone ascii_digit ascii_space sample_zones
           30000000 70000000 180000 180000 (text "Ajah") _ _
           ltac:(discriminate) ltac:(vm_compute; reflexivity)
           ltac:(vm_compute; reflexivity)).
Defined.

(** ** The range pattern *)

Section RangePattern.

Variable unicode_digit : char -> option N.
Variable unicode_space : char -> bool.






End RangePattern.



(** ** The route handler of the bot *)





(** ** The two smart scores of a zone *)

(** X20. The two smart scores of a zone agree within 10.5 points.  For a
    zone with scores of [0, 100], [analyze_property] shows the binary64
    nearest to [T / 10], with [T = 4 * (100 - flood) + 3 * security
    + 3 * infrastructure], and the integer [r] that [_calculate_smart_score]
    gives the same zone satisfies [|10 * r - T| <= 105]; so a zone the
    analysis rates LOW risk (score from 80) has a route score of at least
    70, a zone it rates MODERATE one from 55 to 90, and a zone it rates HIGH
    (score below 65) one of at most 75. *)
Theorem smart_scores_consistent
    (str_lower : str -> str) (unicode_digit : char -> option N)
    (unicode_space : char -> bool) (zones_data : zones_t)
    (location : str) (price : Q) (property_type : str) (z : zone) :
  dict_get zones_data (_normalize_location str_lower zones_data location) = Some z ->
  (0 <= flood_score (flood_risk z) <= 100)%Z ->
  (0 <= security_score (security z) <= 100)%Z ->
  (0 <= infrastructure_score (infrastructure z) <= 100)%Z ->
  let tenths := (4 * (100 - flood_score (flood_risk z)) + 3 * security_score (security z)
                 + 3 * infrastructure_score (infrastructure z))%Z in
  exists (a : analysis) (r : Z),
    analyze_property str_lower unicode_digit unicode_space zones_data
      location price property_type = Return (Found a) /\
    _calculate_smart_score z = Return r /\
    smart_score a = Binary64.nearest_quotient tenths 10 /\
    (Z.abs (10 * r - tenths) <= 105)%Z /\
    (overall_risk a = LOW -> (70 <= r)%Z) /\
    (overall_risk a = MODERATE -> (55 <= r <= 90)%Z) /\
    (overall_risk a = HIGH -> (r <= 75)%Z).
Proof.
  intros Hget Hf Hs Hi tenths.
  destruct (weighted_smart_score_valid _ _ _ Hf Hs Hi) as [x [Hx Hcheck]].
  fold tenths in Hcheck. unfold analyzer_check in Hcheck.
  apply andb_true_iff in Hcheck. destruct Hcheck as [Hcheck _].
  apply andb_true_iff in Hcheck. destruct Hcheck as [Hcheck Hrisk].
  apply andb_true_iff in Hcheck. destruct Hcheck as [Hround _].
  apply FloatAxioms.Leibniz.eqb_spec in Hround.
  apply risk_eqb_eq in Hrisk.
  destruct (analyze_property_run str_lower unicode_digit unicode_space zones_data
              location price property_type z x Hget Hx) as [v Hrun].
  destruct (route_smart_score_valid z Hf Hs Hi) as [r [Hr [Hrange Hnear]]].
  eexists. exists r. split; [exact Hrun|]. split; [exact Hr|].
  cbn [smart_score overall_risk]. split; [exact Hround|].
  assert (Hdiff : (Z.abs (10 * r - tenths) <= 105)%Z) by (unfold tenths; lia).
  split; [exact Hdiff|].
  rewrite Hrisk. unfold risk_of_tenths.
  destruct (800 <=? tenths)%Z eqn:H1; [apply Z.leb_le in H1 | apply Z.leb_gt in H1];
    [|destruct (650 <=? tenths)%Z eqn:H2;
      [apply Z.leb_le in H2 | apply Z.leb_gt in H2]];
    (split; [|split]); intros E; try discriminate E; lia.
Qed.

Lemma smart_scores_consistent_witness :
  exists (a : analysis) (r : Z),
    analyze_property ascii_lower ascii_digit ascii_space sample_zones
      (text "ajah") 45000000 (text "3-bedroom") = Return (Found a) /\
    _calculate_smart_score ajah = Return r /\
    (Z.abs (10 * r - 445) <= 105)%Z.
Proof.
  destruct (smart_scores_consistent ascii_lower ascii_digit ascii_space sample_zones
              (text "ajah") 45000000 (text "3-bedroom") ajah
              ltac:(reflexivity) ltac:(simpl; lia) ltac:(simpl; lia) ltac:(simpl; lia))
    as [a [r [Hrun [Hr [_ [Hdiff _]]]]]].
  exists a, r. split; [exact Hrun|]. split; [exact Hr|]. exact Hdiff.
Defined.

(** ** The search by budget *)

Lemma sqm_estimate_default (bedrooms : Z) :
  bedrooms <> 2%Z -> bedrooms <> 4%Z -> bedrooms <> 5%Z ->
  sqm_estimate bedrooms = sqm_estimate 3.
Proof.
  intros H2 H4 H5. unfold sqm_estimate.
  destruct bedrooms as [|p|p]; try reflexivity.
  repeat match goal with
         | q : positive |- _ => destruct q; try reflexivity
         end; congruence.
Qed.

(** X21. A search by budget is a corridor search whose security floor (50)
    and flood ceiling (70) the caller cannot change: a report it returns is
    the report of [search_route_corridor] with these two filters, the width
    given and an integer price ceiling; every match has a security score of
    at least 50, a flood score of at most 70 and, unless the ceiling is 0,
    a price per sqm of at most the ceiling; and a number of bedrooms other
    than 2, 4 and 5 is sized and answered as 3 bedrooms are. *)
Theorem search_by_budget_fixed_filters
    (zones : zones_t) (gmaps_geocode : str -> option point)
    (gmaps_distance_matrix : point -> point -> matrix_reply)
    (origin destination : str) (budget bedrooms : Z) (w : Q)
    (report : corridor_report) :
  search_by_budget_along_route zones gmaps_geocode gmaps_distance_matrix
    origin destination budget bedrooms w = Return (SearchOK report) ->
  param_min_security_score report = 50%Z /\
  param_max_flood_risk report = 70%Z /\
  param_corridor_width_km report = w /\
  (exists ceiling,
     param_max_price_per_sqm report = Some ceiling /\
     search_route_corridor zones gmaps_geocode gmaps_distance_matrix
       origin destination w (Some ceiling) 50 70 = Return (SearchOK report) /\
     forall p, In p (properties report) ->
       (50 <= cp_security_score p)%Z /\ (flood_risk_score p <= 70)%Z /\
       (ceiling <> 0%Z -> (price_per_sqm p <= inject_Z ceiling)%Q)) /\
  (bedrooms <> 2%Z -> bedrooms <> 4%Z -> bedrooms <> 5%Z ->
   search_by_budget_along_route zones gmaps_geocode gmaps_distance_matrix
     origin destination budget 3 w = Return (SearchOK report)).
Proof.
  intros Hrun.
  assert (Hdefault : bedrooms <> 2%Z -> bedrooms <> 4%Z -> bedrooms <> 5%Z ->
            search_by_budget_along_route zones gmaps_geocode gmaps_distance_matrix
              origin destination budget 3 w = Return (SearchOK report)).
  { intros H2 H4 H5. unfold search_by_budget_along_route in *.
    rewrite <- (sqm_estimate_default bedrooms H2 H4 H5). exact Hrun. }
  unfold search_by_budget_along_route in Hrun.
  apply bind_Return in Hrun. destruct Hrun as [quotient [_ Hrun]].
  apply bind_Return in Hrun. destruct Hrun as [ceiling [_ Hrun]].
  destruct (search_route_corridor_OK _ _ _ _ _ _ _ _ _ _ Hrun)
    as [o [d [km [mins [l [_ [_ [_ [Hl Hrep]]]]]]]]].
  assert (Hparams : param_min_security_score report = 50%Z /\
                    param_max_flood_risk report = 70%Z /\
                    param_corridor_width_km report = w /\
                    param_max_price_per_sqm report = Some ceiling /\
                    properties report = sort_by_distance l)
    by (rewrite Hrep; repeat split).
  destruct Hparams as [Hmin [Hmax [Hw [Hceil Hprops]]]].
  split; [exact Hmin|]. split; [exact Hmax|]. split; [exact Hw|].
  split; [|exact Hdefault].
  exists ceiling. split; [exact Hceil|]. split; [exact Hrun|].
  intros p Hp. rewrite Hprops in Hp. apply (proj1 (sort_by_distance_In p l)) in Hp.
  apply (corridor_loop_In o d w (Some ceiling) 50%Z 70%Z zones l p Hl) in Hp.
  destruct Hp as [name [z [from_origin [smart [_ [_ [Hpass [_ [_ ->]]]]]]]]].
  cbn [corridor_entry cp_security_score flood_risk_score price_per_sqm].
  unfold passes_filters in Hpass.
  apply andb_true_iff in Hpass. destruct Hpass as [Hpass Hflood].
  apply andb_true_iff in Hpass. destruct Hpass as [Hprice Hsec].
  apply negb_true_iff in Hprice, Hsec, Hflood.
  rewrite Z.gtb_ltb in Hflood. apply Z.ltb_ge in Hflood, Hsec.
  split; [exact Hsec|]. split; [exact Hflood|].
  intros Hnz. unfold over_price_ceiling in Hprice.
  apply andb_false_iff in Hprice. destruct Hprice as [Hz|Hlt].
  - apply negb_false_iff, Z.eqb_eq in Hz. contradiction.
  - apply Qnot_lt_le. intros Hc. apply Qlt_bool_iff in Hc.
    rewrite Hc in Hlt. discriminate Hlt.
Qed.

Lemma search_by_budget_fixed_filters_witness :
  exists report,
    search_by_budget_along_route sample_zones no_geocoder sample_matrix
      (text "Ajah") (text "Lekki Phase 1") 100 3 5 = Return (SearchOK report) /\
    param_min_security_score report = 50%Z /\
    param_max_flood_risk report = 70%Z.
Proof.
  pose proof (small_budget_ceiling 3 100 ltac:(simpl; lia)) as Hceiling.
  apply bind_Return in Hceiling. destruct Hceiling as [quotient [Hq Hc]].
  destruct (sample_search_returns 5 (Some 0%Z) 50%Z 70%Z) as [report [Hrun _]].
  assert (Hbudget : search_by_budget_along_route sample_zones no_geocoder sample_matrix
                      (text "Ajah") (text "Lekki Phase 1") 100 3 5
                    = Return (SearchOK report)).
  { unfold search_by_budget_along_route. rewrite Hq. cbn [bind]. rewrite Hc.
    cbn [bind]. exact Hrun. }
  exists report. split; [exact Hbudget|].
  destruct (search_by_budget_fixed_filters _ _ _ _ _ _ _ _ _ Hbudget)
    as [Hmin [Hmax _]].
  split; assumption.
Defined.
